(** * MindMeld CRF tagger: feature binning, per-token confidences, model loading

    A shallow embedding of

    - [mindmeld/models/taggers/crf.py]: [FeatureMapper], [FeatureBinner] and
      the prediction glue of [CRFTagger];
    - [mmworkbench/processor/classifier.py]: [Classifier.load].

    Python floats and [numpy.float64] are IEEE-754 binary64 values; they are
    modelled with the executable reference semantics of [SpecFloat]
    (precision 53, maximal exponent 1024), so every operation below rounds
    the way the interpreter does.  Exceptions are an explicit [result]
    type; objects mutated in place are threaded through as values. *)

From Stdlib Require Import ZArith Ascii String Floats.SpecFloat.
From stdpp Require Import gmap strings list.

Local Open Scope Z_scope.

(** ** binary64 arithmetic *)

Module Float64.

Definition float : Type := spec_float.

Definition prec : Z := 53.
Definition emax : Z := 1024.

(** Conversion of a Python [int], rounding to nearest-even. *)
Definition of_Z (z : Z) : float := binary_normalize prec emax z 0 false.

Definition add : float -> float -> float := SFadd prec emax.
Definition sub : float -> float -> float := SFsub prec emax.
Definition mul : float -> float -> float := SFmul prec emax.
Definition div : float -> float -> float := SFdiv prec emax.
Definition sqrt : float -> float := SFsqrt prec emax.

(** [a < b], [a > b] and [a == b] on floats: false as soon as one side is NaN. *)
Definition ltb : float -> float -> bool := SFltb.
Definition gtb (a b : float) : bool := SFltb b a.
Definition eqb : float -> float -> bool := SFeqb.

Definition is_nan (f : float) : bool :=
  match f with S754_nan => true | _ => false end.

Definition is_zero (f : float) : bool :=
  match f with S754_zero _ => true | _ => false end.

(** A number in the narrow sense: neither an infinity nor NaN. *)
Definition is_finite (f : float) : bool :=
  match f with
  | S754_zero _ | S754_finite _ _ _ => true
  | S754_infinity _ | S754_nan => false
  end.

Definition leb : float -> float -> bool := SFleb.

(** The greatest integer not above a finite float. *)
Definition floor (f : float) : option Z :=
  match f with
  | S754_zero _ => Some 0
  | S754_finite s m e => Some (Z.shiftl (cond_Zopp s (Z.pos m)) e)
  | S754_infinity _ | S754_nan => None
  end.

(** Truncation toward zero of a finite float. *)
Definition trunc (f : float) : option Z :=
  match f with
  | S754_zero _ => Some 0
  | S754_finite s m e => Some (cond_Zopp s (Z.shiftl (Z.pos m) e))
  | S754_infinity _ | S754_nan => None
  end.

End Float64.

Abbreviation float := Float64.float.

(** ** Python values, exceptions and builtins *)

Inductive exn : Type :=
| ValueError
| TypeError
| OverflowError
| ZeroDivisionError
| IndexError
| KeyError (key : string)
| FileNotFoundError
| ClassifierLoadError (msg : string).

Inductive result (A : Type) : Type :=
| Ok (a : A)
| Raise (e : exn).

Arguments Ok {A} a.
Arguments Raise {A} e.

#[global] Instance result_ret : MRet result := fun _ a => Ok a.
#[global] Instance result_bind : MBind result := fun _ _ f r =>
  match r with
  | Ok a => f a
  | Raise e => Raise e
  end.

(** The feature values a token dictionary can hold. *)
Inductive pyval : Type :=
| PyNone
| PyBool (b : bool)
| PyInt (z : Z)
| PyFloat (f : float)
| PyStr (s : string).

(** Interfaces of the interpreter that the modules call but do not define:
    the float-literal parser behind [float(str)] and [repr] of a string. *)
Class PyBuiltins := {
  float_of_str : string -> option float;
  repr_str : string -> string
}.

(** [float(x)]: a float is returned as it is, an [int] is rounded (and is an
    [OverflowError] beyond the binary64 range), a [bool] is 0.0 or 1.0, a
    string is parsed ([ValueError] when it is no float literal), and [None]
    is a [TypeError]. *)
Definition py_float `{!PyBuiltins} (v : pyval) : result float :=
  match v with
  | PyFloat f => Ok f
  | PyInt z =>
      match Float64.of_Z z with
      | S754_infinity _ => Raise OverflowError
      | f => Ok f
      end
  | PyBool b => Ok (Float64.of_Z (if b then 1 else 0))
  | PyStr s =>
      match float_of_str s with
      | Some f => Ok f
      | None => Raise ValueError
      end
  | PyNone => Raise TypeError
  end.

(** [int(x)] of a float: truncation toward zero. *)
Definition py_int (f : float) : result Z :=
  match f with
  | S754_nan => Raise ValueError
  | S754_infinity _ => Raise OverflowError
  | _ => Ok (default 0 (Float64.trunc f))
  end.

(** [a / b] on Python numbers. *)
Definition py_truediv (a b : float) : result float :=
  if Float64.is_zero b then Raise ZeroDivisionError else Ok (Float64.div a b).

(** A [dict] with string keys, in insertion order. *)
Definition pydict (V : Type) : Type := list (string * V).

Fixpoint dict_get {V} (d : pydict V) (k : string) : option V :=
  match d with
  | [] => None
  | (k', v) :: d' => if String.eqb k k' then Some v else dict_get d' k
  end.

(** [d[k] = v]: an existing key keeps its position. *)
Fixpoint dict_set {V} (d : pydict V) (k : string) (v : V) : pydict V :=
  match d with
  | [] => [(k, v)]
  | (k', v') :: d' =>
      if String.eqb k k' then (k, v) :: d' else (k', v') :: dict_set d' k v
  end.

(** [d.update(other)]. *)
Definition dict_update {V} (d other : pydict V) : pydict V :=
  foldl (fun acc kv => dict_set acc kv.1 kv.2) d other.

Definition dict_keys {V} (d : pydict V) : list string := d.*1.

(** ** numpy *)

(** [np.mean] and [np.std] (population standard deviation) of a list of
    floats, as an interface. *)
Class Numpy := {
  np_mean : list float -> float;
  np_std : list float -> float
}.

(** The order numpy sorts and searches float64 with: NaN after everything. *)
Definition np_less (a b : float) : bool :=
  Float64.ltb a b || (Float64.is_nan b && negb (Float64.is_nan a)).

(** The binary search of [np.searchsorted] with the default [side='left'];
    the interval [max_idx - min_idx] shrinks at every turn, so a fuel of
    the array's length is never used up. *)
Fixpoint binsearch_left (fuel : nat) (arr : list float) (key_val : float)
    (min_idx max_idx : nat) : nat :=
  match fuel with
  | O => min_idx
  | S fuel' =>
      if (min_idx <? max_idx)%nat then
        let mid_idx := (min_idx + (max_idx - min_idx) / 2)%nat in
        match arr !! mid_idx with
        | Some mid_val =>
            if np_less mid_val key_val
            then binsearch_left fuel' arr key_val (mid_idx + 1)%nat max_idx
            else binsearch_left fuel' arr key_val min_idx mid_idx
        | None => min_idx
        end
      else min_idx
  end.

Definition np_searchsorted (arr : list float) (value : float) : nat :=
  binsearch_left (length arr) arr value 0%nat (length arr).

(** What the search is compared with: the number of elements below a value,
    the number of elements not above it, and arrays in numpy's order. *)
Definition count_below (arr : list float) (v : float) : nat :=
  length (List.filter (fun a => np_less a v) arr).

Definition count_not_above (arr : list float) (v : float) : nat :=
  length (List.filter (fun a => Float64.leb a v) arr).

Definition ascending (arr : list float) : Prop :=
  forall i j a b, (i <= j)%nat -> arr !! i = Some a -> arr !! j = Some b ->
    np_less b a = false.

(** ** crf.py: FeatureMapper *)

(** [ZERO = 1e-20], the binary64 value nearest to the literal. *)
Definition ZERO : float := S754_finite false 6646139978924579 (-119).

Module FeatureMapper.

Record t : Type := mk {
  _num_std : float;
  _size_std : float;
  values : list float;
  std : option float;
  mean : option float;
  _std_bins : list float;
  feat_name : option string
}.

(** [__init__(num_std, size_std)]. *)
Definition init (num_std size_std : float) : t :=
  {| _num_std := num_std; _size_std := size_std; values := [];
     std := None; mean := None; _std_bins := []; feat_name := None |}.

(** [FeatureMapper()], with the defaults [num_std=2] and [size_std=0.5]. *)
Definition new : t :=
  init (Float64.of_Z 2) (Float64.div (Float64.of_Z 1) (Float64.of_Z 2)).

Definition set_feat_name (name : string) (self : t) : t :=
  {| _num_std := _num_std self; _size_std := _size_std self;
     values := values self; std := std self; mean := mean self;
     _std_bins := _std_bins self; feat_name := Some name |}.

Definition add_value (value : float) (self : t) : t :=
  {| _num_std := _num_std self; _size_std := _size_std self;
     values := values self ++ [value]; std := std self; mean := mean self;
     _std_bins := _std_bins self; feat_name := feat_name self |}.

(** The [while num_bin > 0 and self.std > ZERO] loop of [fit]; it returns
    the boundaries appended after the first one. *)
Fixpoint fit_loop (num_bin : nat) (std size_std range_start : float)
    : list float :=
  match num_bin with
  | O => []
  | S num_bin' =>
      if Float64.gtb std ZERO then
        let range_start := Float64.add range_start (Float64.mul std size_std) in
        range_start :: fit_loop num_bin' std size_std range_start
      else []
  end.

(** [num_bin = 2 * int(self._num_std / self._size_std)]. *)
Definition num_bin_of (self : t) : result Z :=
  q ← py_truediv (_num_std self) (_size_std self);
  n ← py_int q;
  Ok (2 * n).

Definition fit `{!Numpy} (self : t) : result t :=
  let std := np_std (values self) in
  let mean := np_mean (values self) in
  let range_start := Float64.sub mean (Float64.mul std (_num_std self)) in
  num_bin ← num_bin_of self;
  let bins :=
    range_start :: fit_loop (Z.to_nat num_bin) std (_size_std self) range_start in
  Ok {| _num_std := _num_std self; _size_std := _size_std self;
        values := values self; std := Some std; mean := Some mean;
        _std_bins := bins; feat_name := feat_name self |}.

Definition map_bucket (self : t) (value : float) : nat :=
  np_searchsorted (_std_bins self) value.

(** [for v in vs: self.add_value(v)]. *)
Definition add_values (vs : list float) (self : t) : t :=
  foldl (fun self v => add_value v self) self vs.

End FeatureMapper.

(** [for x in l: s = body(s, x)], stopping at the first exception. *)
Fixpoint for_each {S A : Type} (body : S -> A -> result S) (s : S)
    (l : list A) : result S :=
  match l with
  | [] => Ok s
  | x :: l' => s' ← body s x; for_each body s' l'
  end.

(** ** crf.py: FeatureBinner *)

Abbreviation word := (pydict pyval).
Abbreviation sentence := (list (pydict pyval)).
Abbreviation dataset := (list (list (pydict pyval))).

Module FeatureBinner.

Record t : Type := mk { features : gmap string FeatureMapper.t }.

Definition init : t := {| features := ∅ |}.

Section WithBuiltins.
Context `{!PyBuiltins}.

Definition _collect_feature (self : t) (feat_name : string)
    (feat_value : pyval) : result t :=
  match py_float feat_value with
  | Raise ValueError => Ok self
  | Raise e => Raise e
  | Ok feat_value =>
      let mapper := default FeatureMapper.new (features self !! feat_name) in
      let mapper := FeatureMapper.set_feat_name feat_name mapper in
      let mapper := FeatureMapper.add_value feat_value mapper in
      Ok {| features := <[feat_name := mapper]> (features self) |}
  end.

(** The three nested loops of [fit]. *)
Definition collect (self : t) (X_train : dataset) : result t :=
  for_each (fun self sentence =>
    for_each (fun self (word : word) =>
      for_each (fun self kv => _collect_feature self kv.1 kv.2) self word)
      self sentence)
    self X_train.

(** [for mapper in self.features.values(): mapper.fit()]; every mapper is
    fitted on its own, so the order of the visit does not matter. *)
Definition fit_mappers `{!Numpy} (self : t) : result t :=
  for_each (fun self kv =>
      mapper ← FeatureMapper.fit kv.2;
      Ok {| features := <[kv.1 := mapper]> (features self) |})
    self (map_to_list (features self)).

Definition fit `{!Numpy} (self : t) (X_train : dataset) : result t :=
  self ← collect self X_train;
  fit_mappers self.

Definition _map_feature (self : t) (feat_name : string) (feat_value : pyval)
    : result word :=
  match py_float feat_value with
  | Raise ValueError => Ok [(feat_name, feat_value)]
  | Raise e => Raise e
  | Ok feat_value =>
      match features self !! feat_name with
      | None => Ok [(feat_name, PyFloat feat_value)]
      | Some mapper =>
          let new_feat_value := FeatureMapper.map_bucket mapper feat_value in
          Ok [(feat_name, PyInt (Z.of_nat new_feat_value))]
      end
  end.

(** The body of the innermost loop of [transform]; [if new_feats:] is the
    truth value of a dict, false only for the empty one. *)
Definition transform_item (self : t) (new_word : word) (kv : string * pyval)
    : result word :=
  new_feats ← _map_feature self kv.1 kv.2;
  match new_feats with
  | [] => Ok new_word
  | _ :: _ => Ok (dict_update new_word new_feats)
  end.

Definition transform_word (self : t) (w : word) : result word :=
  for_each (transform_item self) [] w.

Definition transform (self : t) (X_train : dataset) : result dataset :=
  mapM (fun sentence => mapM (transform_word self) sentence) X_train.

Definition fit_transform `{!Numpy} (self : t) (X_train : dataset)
    : result (t * dataset) :=
  self ← fit self X_train;
  new_X_train ← transform self X_train;
  Ok (self, new_X_train).

End WithBuiltins.

(** The feature values on which [float] returns or raises [ValueError],
    the one exception the binner handles; and the binners whose mappers
    all have the default hyperparameters. *)
Definition coerces_or_value_error `{!PyBuiltins} (v : pyval) : Prop :=
  match py_float v with
  | Ok _ | Raise ValueError => True
  | Raise _ => False
  end.

Definition default_mappers (self : t) : Prop :=
  forall name mapper,
    features self !! name = Some mapper ->
    FeatureMapper._num_std mapper = FeatureMapper._num_std FeatureMapper.new /\
    FeatureMapper._size_std mapper = FeatureMapper._size_std FeatureMapper.new.

(** Every mapper of the binner has collected at least one value. *)
Definition nonempty_mappers (self : t) : Prop :=
  forall name mapper,
    features self !! name = Some mapper -> FeatureMapper.values mapper <> [].

(** Every mapper carries the key it is stored under ([mapper.feat_name]). *)
Definition named_mappers (self : t) : Prop :=
  forall name mapper,
    features self !! name = Some mapper ->
    FeatureMapper.feat_name mapper = Some name.

(** What the collection loops are compared with: the floats that the
    values under [name] coerce to, in the order of the visit, and the
    values the binner holds for [name] (none without a mapper). *)
Definition coerced_in_word `{!PyBuiltins} (name : string) (w : word)
    : list float :=
  flat_map (fun kv : string * pyval =>
      if String.eqb kv.1 name
      then match py_float kv.2 with Ok f => [f] | Raise _ => [] end
      else [])
    w.

Definition coerced_in_dataset `{!PyBuiltins} (name : string) (X : dataset)
    : list float :=
  flat_map (flat_map (coerced_in_word name)) X.

Definition collected_values (self : t) (name : string) : list float :=
  match features self !! name with
  | Some mapper => FeatureMapper.values mapper
  | None => []
  end.

End FeatureBinner.

(** ** crf.py: CRFTagger *)

(** The underlying sequence model ([self._clf]) and the per-example feature
    extractor, both outside these modules, as interfaces. *)
Class CRFModel := {
  clf_predict : dataset -> list (list string);
  clf_predict_marginals : dataset -> list (list (gmap string float))
}.

Class SequenceFeatures (Example : Type) := {
  extract_sequence_features : Example -> sentence
}.

(** [enumerate(l)]. *)
Definition enumerate {A} (l : list A) : list (nat * A) := imap pair l.

Module CRFTagger.

Record t : Type := mk { _feat_binner : FeatureBinner.t }.

Section WithModel.
Context `{!PyBuiltins, !Numpy, !CRFModel}.
Context {Example : Type} `{!SequenceFeatures Example}.

Definition predict (self : t) (X : dataset) : list (list string) :=
  clf_predict X.

Definition extract_example_features (example : Example) : sentence :=
  extract_sequence_features example.

Definition _preprocess_data (self : t) (X : dataset) (fit : bool)
    : result (t * dataset) :=
  self ← (if fit
          then binner ← FeatureBinner.fit (_feat_binner self) X;
               Ok {| _feat_binner := binner |}
          else Ok self);
  new_X ← FeatureBinner.transform (_feat_binner self) X;
  Ok (self, new_X).

Definition extract_features (self : t) (examples : list Example) (fit : bool)
    : result (t * dataset) :=
  let feats := extract_example_features <$> examples in
  _preprocess_data self feats fit.

(** [marginals_dict[query_index][i][tag]]. *)
Definition marginal_at (marginals_dict : list (list (gmap string float)))
    (query_index i : nat) (tag : string) : result float :=
  match marginals_dict !! query_index with
  | None => Raise IndexError
  | Some query_marginals =>
      match query_marginals !! i with
      | None => Raise IndexError
      | Some distribution =>
          match distribution !! tag with
          | None => Raise (KeyError tag)
          | Some p => Ok p
          end
      end
  end.

(** The marginal distribution of token [i] of query [query_index] gives
    the mass [p] to [tag]. *)
Definition marginal_mass (marginals_dict : list (list (gmap string float)))
    (query_index i : nat) (tag : string) (p : float) : Prop :=
  exists query_marginals distribution,
    marginals_dict !! query_index = Some query_marginals /\
    query_marginals !! i = Some distribution /\
    distribution !! tag = Some p.

(** The two loops of [predict_proba] over the features [X]. *)
Definition marginal_tuples (X : dataset) : result (list (list (string * float))) :=
  let seq := clf_predict X in
  let marginals_dict := clf_predict_marginals X in
  mapM (fun q : nat * list string =>
      mapM (fun it : nat * string =>
          p ← marginal_at marginals_dict q.1 it.1 it.2;
          Ok (it.2, p))
        (enumerate q.2))
    (enumerate seq).

Definition predict_proba (self : t) (examples : list Example)
    : result (list (list (string * float))) :=
  sX ← extract_features self examples false;
  marginal_tuples sX.2.

(** [marginals_dict[query_index][i]]. *)
Definition distribution_at (marginals_dict : list (list (gmap string float)))
    (query_index i : nat) : result (gmap string float) :=
  match marginals_dict !! query_index with
  | None => Raise IndexError
  | Some query_marginals =>
      match query_marginals !! i with
      | None => Raise IndexError
      | Some distribution => Ok distribution
      end
  end.

(** [list(d.keys())] and [list(d.values())]: one enumeration of the
    dictionary, read by component. *)
Definition dict_key_list (d : gmap string float) : list string :=
  (map_to_list d).*1.

Definition dict_value_list (d : gmap string float) : list float :=
  (map_to_list d).*2.

(** The two loops of [predict_proba_distribution] over the features [X];
    the state is the pair of growing lists. *)
Definition distribution_lists (X : dataset)
    : result (list (list string) * list (list float)) :=
  let seq := clf_predict X in
  let marginals_dict := clf_predict_marginals X in
  for_each (fun (acc : list (list string) * list (list float))
                (q : nat * list string) =>
      tp ← for_each (fun (tp : list (list string) * list (list float))
                         (it : nat * string) =>
              d ← distribution_at marginals_dict q.1 it.1;
              Ok (tp.1 ++ [dict_key_list d], tp.2 ++ [dict_value_list d]))
            ([], []) (enumerate q.2);
      Ok (acc.1 ++ tp.1, acc.2 ++ tp.2))
    ([], []) (enumerate seq).

(** The result is the one-element list [[tag_maps, predictions]]. *)
Definition predict_proba_distribution (self : t) (examples : list Example)
    : result (list (list (list string) * list (list float))) :=
  sX ← extract_features self examples false;
  tp ← distribution_lists sX.2;
  Ok [tp].

End WithModel.

End CRFTagger.

(** The tokens that the loops of the prediction functions visit, in their
    order: query index, then token index and predicted tag. *)
Definition visited_tokens (seq : list (list string))
    : list (nat * (nat * string)) :=
  flat_map (fun q : nat * list string =>
              (fun it : nat * string => (q.1, it)) <$> enumerate q.2)
    (enumerate seq).

(** ** classifier.py: Classifier *)

(** Modelled from the spec: [mmworkbench/exceptions.py] and [joblib] are not
    among the sources.  [joblib.load] opens the file at the path and
    unpickles it; a path with no file is the [FileNotFoundError] that
    [load] catches, and [ClassifierLoadError] carries its message. *)
Class Joblib (File Model : Type) := {
  unpickle : File -> result Model
}.

Definition joblib_load {File Model} `{!Joblib File Model}
    (fs : gmap string File) (model_path : string) : result Model :=
  match fs !! model_path with
  | None => Raise FileNotFoundError
  | Some file => unpickle file
  end.

Module Classifier.

Section WithModel.
Context {File Model : Type} `{!PyBuiltins, !Joblib File Model}.

(** [class_name] is [self.__class__.__name__]. *)
Record t : Type := mk {
  class_name : string;
  _model : option Model
}.

(** ['Unable to load {}. Pickle file not found at {!r}'.format(name, path)]. *)
Definition load_error_msg (name model_path : string) : string :=
  "Unable to load " +:+ name +:+ ". Pickle file not found at "
    +:+ repr_str model_path.

(** [load] over the file system [fs]: the classifier afterwards, and
    [None] or the exception raised. *)
Definition load (self : t) (fs : gmap string File) (model_path : string)
    : t * result unit :=
  match joblib_load fs model_path with
  | Ok model =>
      ({| class_name := class_name self; _model := Some model |}, Ok ())
  | Raise FileNotFoundError =>
      (self, Raise (ClassifierLoadError
                      (load_error_msg (class_name self) model_path)))
  | Raise e => (self, Raise e)
  end.

End WithModel.

(** Configuration values: [None], numbers, strings, lists and dicts. *)
#[local] Unset Elimination Schemes.
Inductive cfgval : Type :=
| CNone
| CInt (z : Z)
| CStr (s : string)
| CList (l : list cfgval)
| CDict (d : list (string * cfgval)).
#[local] Set Elimination Schemes.

(** The truth value [x or ...] tests. *)
Definition truthy (v : cfgval) : bool :=
  match v with
  | CNone => false
  | CInt z => negb (z =? 0)
  | CStr s => negb (String.eqb s "")
  | CList l => match l with [] => false | _ => true end
  | CDict d => match d with [] => false | _ => true end
  end.

(** A class's [DEFAULT_CONFIG]: the name of the default model and, per
    model name, a dict of settings.  The base class has [None]. *)
Record config : Type := mk_config {
  default_model : string;
  models : pydict (pydict cfgval)
}.

(** The constructor [ModelConfig] of [..models], with its five positional
    arguments. *)
Class ModelConfigClass (MC : Type) := {
  ModelConfig : cfgval -> cfgval -> cfgval -> cfgval -> cfgval -> MC
}.

(** [d[key]] on a dict of settings. *)
Definition getitem {V} (d : pydict V) (key : string) : result V :=
  match dict_get d key with
  | Some v => Ok v
  | None => Raise (KeyError key)
  end.

(** [value or model_config[key]]: the right side is evaluated only when
    the left one is false. *)
Definition or_setting (value : cfgval) (model_config : pydict cfgval)
    (key : string) : result cfgval :=
  if truthy value then Ok value else getitem model_config key.

(** [get_model_config]; [model_name] is [None] or a string, and
    subscripting a [DEFAULT_CONFIG] that is [None] is a [TypeError]. *)
Definition get_model_config {MC} `{!ModelConfigClass MC}
    (DEFAULT_CONFIG : option config)
    (model_type features params_grid cv : cfgval)
    (model_name : option string) : result MC :=
  model_name ←
    match model_name with
    | Some name =>
        if negb (String.eqb name "") then Ok name
        else match DEFAULT_CONFIG with
             | Some cfg => Ok (default_model cfg)
             | None => Raise TypeError
             end
    | None =>
        match DEFAULT_CONFIG with
        | Some cfg => Ok (default_model cfg)
        | None => Raise TypeError
        end
    end;
  model_config ←
    match DEFAULT_CONFIG with
    | Some cfg => getitem (models cfg) model_name
    | None => Raise TypeError
    end;
  model_type ← or_setting model_type model_config "model_type";
  features ← or_setting features model_config "features";
  params_grid ← or_setting params_grid model_config "params_grid";
  cv ← or_setting cv model_config "cv";
  Ok (ModelConfig model_type CNone params_grid features cv).

End Classifier.

(** ** Instances to run the model on *)

(** Sum, mean and population standard deviation of binary64 values,
    accumulated from left to right.  numpy adds in this order for fewer
    than eight values (it sums longer arrays pairwise); the variance is the
    mean of the squared deviations from the mean, as in [np.std]. *)
Definition sum64 (l : list float) : float :=
  foldl Float64.add (S754_zero false) l.

Definition mean64 (l : list float) : float :=
  Float64.div (sum64 l) (Float64.of_Z (Z.of_nat (length l))).

Definition std64 (l : list float) : float :=
  let arrmean := mean64 l in
  let x := (fun a => Float64.sub a arrmean) <$> l in
  Float64.sqrt (mean64 ((fun d => Float64.mul d d) <$> x)).

Definition numpy64 : Numpy := {| np_mean := mean64; np_std := std64 |}.

(** A default mapper that has collected 1, 2, 3, 4, 5, and one that has
    collected 1 and 5 (mean 3, deviation 2, boundaries -1, 0, ..., 7). *)
Definition sample_mapper : FeatureMapper.t :=
  FeatureMapper.add_values (Float64.of_Z <$> [1; 2; 3; 4; 5]) FeatureMapper.new.

Definition len_mapper : FeatureMapper.t :=
  FeatureMapper.add_values (Float64.of_Z <$> [1; 5]) FeatureMapper.new.

(** [FeatureMapper(num_std=-0.25, size_std=0.5)] after collecting 1, ..., 5:
    the ratio of the hyperparameters is -0.5. *)
Definition negative_ratio_mapper : FeatureMapper.t :=
  FeatureMapper.add_values (Float64.of_Z <$> [1; 2; 3; 4; 5])
    (FeatureMapper.init
       (SFopp (Float64.div (Float64.of_Z 1) (Float64.of_Z 4)))
       (Float64.div (Float64.of_Z 1) (Float64.of_Z 2))).

(** A dataset with the value [10 ** 308] twice under one name: each coerces
    to a finite float, and their sum overflows. *)
Definition huge_train : dataset :=
  [[ [("f", PyInt (10 ^ 308))] ]; [ [("f", PyInt (10 ^ 308))] ]].

(** The dataset [[{"len": 1, "pos": "NN"}], [{"len": 5, "pos": "NN"}]] and
    a token seen afterwards, with a numeric feature that was never fitted. *)
Definition sample_train : dataset :=
  [[ [("len", PyInt 1); ("pos", PyStr "NN")] ];
   [ [("len", PyInt 5); ("pos", PyStr "NN")] ]].

Definition sample_test : dataset :=
  [[ [("len", PyInt 3); ("x", PyStr "5")] ]].

(** A sequence model that labels every token O although its marginals
    give O a quarter and B three quarters; examples that are their own
    feature dictionaries; files that are their own models. *)
Definition toy_distribution : gmap string float :=
  {[ "O" := Float64.div (Float64.of_Z 1) (Float64.of_Z 4);
     "B" := Float64.div (Float64.of_Z 3) (Float64.of_Z 4) ]}.

Definition toy_model : CRFModel :=
  {| clf_predict X := (fun sent : sentence => (fun _ => "O") <$> sent) <$> X;
     clf_predict_marginals X :=
       (fun sent : sentence => (fun _ => toy_distribution) <$> sent) <$> X |}.

Definition identity_features : SequenceFeatures sentence :=
  {| extract_sequence_features example := example |}.

Definition plain_joblib : Joblib unit unit := {| unpickle file := Ok file |}.

(** The plain decimal integers among Python's float literals ([5], [-12],
    [+3]); every other string is refused. *)
Definition digit_of (c : ascii) : option Z :=
  let n := Z.of_nat (nat_of_ascii c) in
  if (48 <=? n) && (n <=? 57) then Some (n - 48) else None.

Fixpoint parse_digits (acc : Z) (s : string) : option Z :=
  match s with
  | EmptyString => Some acc
  | String c s' =>
      match digit_of c with
      | Some d => parse_digits (10 * acc + d) s'
      | None => None
      end
  end.

Definition parse_unsigned (s : string) : option float :=
  match s with
  | EmptyString => None
  | _ => Float64.of_Z <$> parse_digits 0 s
  end.

Definition float_of_decimal (s : string) : option float :=
  match s with
  | String "-"%char s' => SFopp <$> parse_unsigned s'
  | String "+"%char s' => parse_unsigned s'
  | _ => parse_unsigned s
  end.

(** [repr] of a string without quotes, backslashes or control characters. *)
Definition repr_plain (s : string) : string := "'" +:+ s +:+ "'".

Definition decimal_builtins : PyBuiltins :=
  {| float_of_str := float_of_decimal; repr_str := repr_plain |}.

(** The binner fitted on [sample_train]. *)
Definition sample_binner : FeatureBinner.t :=
  match @FeatureBinner.fit decimal_builtins numpy64 FeatureBinner.init
          sample_train with
  | Ok binner => binner
  | Raise _ => FeatureBinner.init
  end.

(** [len_mapper] after [fit]. *)
Definition len_fitted : FeatureMapper.t :=
  match @FeatureMapper.fit numpy64 len_mapper with
  | Ok fitted => fitted
  | Raise _ => len_mapper
  end.

(** A check of the order of neighbours, enough for [ascending]. *)
Fixpoint ascendingb (arr : list float) : bool :=
  match arr with
  | a :: (b :: _) as rest => negb (np_less b a) && ascendingb rest
  | _ => true
  end.

(** The binner fitted on [huge_train] and its one mapper. *)
Definition huge_binner : FeatureBinner.t :=
  match @FeatureBinner.fit decimal_builtins numpy64 FeatureBinner.init
          huge_train with
  | Ok binner => binner
  | Raise _ => FeatureBinner.init
  end.

Definition huge_mapper : FeatureMapper.t :=
  match FeatureBinner.features huge_binner !! "f" with
  | Some mapper => mapper
  | None => FeatureMapper.new
  end.

(** What [sample_binner] turns [sample_train] into. *)
Definition sample_train_binned : dataset :=
  [[ [("len", PyInt 2); ("pos", PyStr "NN")] ];
   [ [("len", PyInt 6); ("pos", PyStr "NN")] ]].

(** The mapper that [sample_binner] holds for len. *)
Definition len_fitted_named : FeatureMapper.t :=
  match FeatureBinner.features sample_binner !! "len" with
  | Some mapper => mapper
  | None => len_fitted
  end.

(** A tagger around [sample_binner], and the features of [sample_test]. *)
Definition sample_tagger : CRFTagger.t :=
  {| CRFTagger._feat_binner := sample_binner |}.

Definition sample_test_binned : dataset :=
  [[ [("len", PyInt 4); ("x", PyFloat (Float64.of_Z 5))] ]].

(** A [DEFAULT_CONFIG] with one model, and [ModelConfig] as a tuple. *)
Definition sample_entry : pydict Classifier.cfgval :=
  [("model_type", Classifier.CStr "text");
   ("features",
    Classifier.CDict [("bag-of-words", Classifier.CDict [])]);
   ("params_grid",
    Classifier.CDict
      [("C", Classifier.CList [Classifier.CInt 1; Classifier.CInt 10])]);
   ("cv", Classifier.CDict [("type", Classifier.CStr "k-fold")])].

Definition sample_config : Classifier.config :=
  {| Classifier.default_model := "logreg";
     Classifier.models := [("logreg", sample_entry)] |}.

Definition config_tuple
    : Classifier.ModelConfigClass
        (Classifier.cfgval * Classifier.cfgval * Classifier.cfgval
         * Classifier.cfgval * Classifier.cfgval) :=
  {| Classifier.ModelConfig a b c d e := (a, b, c, d, e) |}.

(** * Properties *)

(** ** Order of binary64 values *)

Ltac fold_pos_compare :=
  repeat match goal with
  | |- context [PosDef.Pos.compare_cont Eq ?p ?q] =>
      change (PosDef.Pos.compare_cont Eq p q) with (Pos.compare p q)
  end.

(** Case analysis on three floats and on the comparisons of their
    exponents and mantissas. *)
Ltac float_order_cases a b c :=
  destruct a as [[]|[]| |[] ?ma ?ea], b as [[]|[]| |[] ?mb ?eb],
    c as [[]|[]| |[] ?mc ?ec];
  try done; fold_pos_compare;
  repeat match goal with
  | |- context [Z.compare ?x ?y] => destruct (Z.compare_spec x y)
  end; try done; try lia; subst;
  repeat match goal with
  | |- context [Pos.compare ?x ?y] => destruct (Pos.compare_spec x y)
  end; simpl; try done; try lia.

Lemma ltb_trans (a b c : float) :
  Float64.ltb a b = true -> Float64.ltb b c = true -> Float64.ltb a c = true.
Proof.
  unfold Float64.ltb, SFltb, SFcompare. float_order_cases a b c.
Qed.

Lemma ltb_not_nan (a b : float) :
  Float64.ltb a b = true -> Float64.is_nan a = false /\ Float64.is_nan b = false.
Proof. by destruct a, b. Qed.

Lemma np_less_lt_trans (a v1 v2 : float) :
  Float64.ltb v1 v2 = true -> np_less a v1 = true -> np_less a v2 = true.
Proof.
  intros H12 H. unfold np_less in *.
  destruct (ltb_not_nan _ _ H12) as [Hn _].
  rewrite Hn, andb_false_l, orb_false_r in H.
  by rewrite (ltb_trans _ _ _ H H12).
Qed.

(** [a] not after [b] and [b] before [v]: then [a] is before [v]. *)
Lemma np_less_le_trans (a b v : float) :
  np_less b a = false -> np_less b v = true -> np_less a v = true.
Proof.
  unfold np_less, Float64.ltb, Float64.is_nan, SFltb, SFcompare.
  float_order_cases a b v.
Qed.

(** ** np.searchsorted *)

Lemma half_lt (lo hi : nat) : (lo < hi)%nat -> ((hi - lo) / 2 < hi - lo)%nat.
Proof. intros H. apply Nat.div_lt; lia. Qed.

Lemma binsearch_left_range fuel arr v lo hi :
  (lo <= hi)%nat ->
  (lo <= binsearch_left fuel arr v lo hi <= hi)%nat.
Proof.
  revert lo hi.
  induction fuel as [|fuel IH]; intros lo hi Hle; cbn [binsearch_left]; [lia|].
  destruct (Nat.ltb_spec lo hi) as [Hlt|]; [|lia].
  pose proof (half_lt lo hi Hlt) as Hhalf.
  destruct (arr !! _) as [mid_val|]; [|lia].
  destruct (np_less mid_val v).
  - specialize (IH (lo + (hi - lo) / 2 + 1)%nat hi). lia.
  - specialize (IH lo (lo + (hi - lo) / 2)%nat). lia.
Qed.

(** The search never moves left when the key grows, whatever the array. *)
Lemma binsearch_left_mono fuel arr v1 v2 lo hi :
  (lo <= hi)%nat ->
  (forall a, np_less a v1 = true -> np_less a v2 = true) ->
  (binsearch_left fuel arr v1 lo hi <= binsearch_left fuel arr v2 lo hi)%nat.
Proof.
  intros Hle Himp. revert lo hi Hle.
  induction fuel as [|fuel IH]; intros lo hi Hle; cbn [binsearch_left]; [lia|].
  destruct (Nat.ltb_spec lo hi) as [Hlt|]; [|lia].
  pose proof (half_lt lo hi Hlt) as Hhalf.
  destruct (arr !! _) as [mid_val|]; [|lia].
  destruct (np_less mid_val v1) eqn:H1.
  - rewrite (Himp _ H1). apply IH. lia.
  - destruct (np_less mid_val v2) eqn:H2; [|apply IH; lia].
    pose proof (binsearch_left_range fuel arr v1 lo (lo + (hi - lo) / 2)%nat).
    pose proof (binsearch_left_range fuel arr v2 (lo + (hi - lo) / 2 + 1)%nat hi).
    lia.
Qed.

Lemma np_searchsorted_mono arr v1 v2 :
  Float64.ltb v1 v2 = true ->
  (np_searchsorted arr v1 <= np_searchsorted arr v2)%nat.
Proof.
  intros H. apply binsearch_left_mono; [lia|].
  intros a. by apply np_less_lt_trans.
Qed.

Lemma np_searchsorted_le_length arr v : (np_searchsorted arr v <= length arr)%nat.
Proof. apply binsearch_left_range. lia. Qed.

(** On an ascending array the fuel suffices and the search splits the
    array into the elements below the key and the others. *)
Lemma binsearch_left_partition fuel arr v lo hi :
  (hi - lo <= fuel)%nat -> (lo <= hi <= length arr)%nat ->
  ascending arr ->
  (forall i a, (i < lo)%nat -> arr !! i = Some a -> np_less a v = true) ->
  (forall i a, (hi <= i)%nat -> arr !! i = Some a -> np_less a v = false) ->
  let r := binsearch_left fuel arr v lo hi in
  (forall i a, (i < r)%nat -> arr !! i = Some a -> np_less a v = true) /\
  (forall i a, (r <= i)%nat -> arr !! i = Some a -> np_less a v = false).
Proof.
  intros Hfuel Hle Hasc. revert lo hi Hfuel Hle.
  induction fuel as [|fuel IH]; intros lo hi Hfuel Hle Hlo Hhi;
    cbn [binsearch_left].
  - split; [done|]. intros i a Hi. apply Hhi. lia.
  - destruct (Nat.ltb_spec lo hi) as [Hlt|Hge].
    2:{ split; [done|]. intros i a Hi. apply Hhi. lia. }
    pose proof (half_lt lo hi Hlt) as Hhalf.
    set (mid := (lo + (hi - lo) / 2)%nat) in *.
    destruct (arr !! mid) as [mid_val|] eqn:Hmid.
    2:{ apply lookup_ge_None in Hmid. lia. }
    destruct (np_less mid_val v) eqn:Hless.
    + apply IH; [lia|lia| |done].
      intros i a Hi Ha.
      apply (np_less_le_trans a mid_val v); [|done].
      apply (Hasc i mid); [lia|done|done].
    + apply IH; [lia|lia|done|].
      intros i a Hi Ha.
      destruct (np_less a v) eqn:Hav; [|done].
      rewrite <- Hless. symmetry.
      apply (np_less_le_trans mid_val a v); [|done].
      apply (Hasc mid i); [lia|done|done].
Qed.

Lemma filter_prefix_length (P : float -> bool) (arr : list float) (r : nat) :
  (forall i a, (i < r)%nat -> arr !! i = Some a -> P a = true) ->
  (forall i a, (r <= i)%nat -> arr !! i = Some a -> P a = false) ->
  (r <= length arr)%nat ->
  length (List.filter P arr) = r.
Proof.
  revert r.
  induction arr as [|x arr IH]; intros r Hlt Hge Hr; simpl in *; [lia|].
  destruct r as [|r].
  - rewrite (Hge 0%nat x); [|lia|done].
    apply (IH 0%nat); [intros; lia| |lia].
    intros i a _ Ha. apply (Hge (S i)); [lia|done].
  - rewrite (Hlt 0%nat x); [|lia|done]. simpl. f_equal.
    apply IH; [| |lia].
    + intros i a Hi Ha. apply (Hlt (S i)); [lia|done].
    + intros i a Hi Ha. apply (Hge (S i)); [lia|done].
Qed.

(** With [side='left'] the search counts the elements strictly below. *)
Lemma np_searchsorted_ascending arr v :
  ascending arr -> np_searchsorted arr v = count_below arr v.
Proof.
  intros Hasc. unfold np_searchsorted, count_below.
  destruct (binsearch_left_partition (length arr) arr v 0 (length arr))
    as [H1 H2]; [lia|lia|done|intros; lia| |].
  - intros i a Hi Ha. apply lookup_lt_Some in Ha. lia.
  - symmetry. apply filter_prefix_length; [done|done|].
    apply binsearch_left_range. lia.
Qed.

Lemma np_searchsorted_singleton b v :
  np_searchsorted [b] v = if np_less b v then 1%nat else 0%nat.
Proof. unfold np_searchsorted. simpl. by destruct (np_less b v). Qed.

(** ** FeatureMapper *)

Lemma floor_nonneg_py_int (q : float) (k : Z) :
  Float64.floor q = Some k -> 0 <= k -> py_int q = Ok k.
Proof.
  destruct q as [s|s| |s m e]; simpl; try done.
  - by intros [= <-] _.
  - intros [= <-] Hk. f_equal. destruct s; simpl in *; [|done].
    apply Z.shiftl_nonneg in Hk. lia.
Qed.

Lemma fit_loop_stop n sd sz r :
  Float64.gtb sd ZERO = false -> FeatureMapper.fit_loop n sd sz r = [].
Proof. intros H. destruct n; simpl; [done|]. by rewrite H. Qed.

Lemma fit_loop_length n sd sz r :
  Float64.gtb sd ZERO = true -> length (FeatureMapper.fit_loop n sd sz r) = n.
Proof.
  intros H. revert r. induction n as [|n IH]; intros r; simpl; [done|].
  rewrite H. simpl. by rewrite IH.
Qed.

(** Each boundary is the one before it plus [std * size_std]. *)
Lemma fit_loop_step n sd sz r i b :
  Float64.gtb sd ZERO = true -> (i < n)%nat ->
  (r :: FeatureMapper.fit_loop n sd sz r) !! i = Some b ->
  (r :: FeatureMapper.fit_loop n sd sz r) !! S i
    = Some (Float64.add b (Float64.mul sd sz)).
Proof.
  intros H. revert r i.
  induction n as [|n IH]; intros r i Hi Hb; [lia|].
  cbn [FeatureMapper.fit_loop] in *. rewrite H in *.
  destruct i as [|i]; simpl in *.
  - by injection Hb as <-.
  - apply IH; [lia|done].
Qed.

Lemma values_add_values vs self :
  FeatureMapper.values (FeatureMapper.add_values vs self)
    = FeatureMapper.values self ++ vs.
Proof.
  unfold FeatureMapper.add_values. revert self.
  induction vs as [|v vs IH]; intros self; simpl; [by rewrite app_nil_r|].
  rewrite IH. simpl. by rewrite <- app_assoc.
Qed.

Lemma hyper_add_values vs self :
  FeatureMapper._num_std (FeatureMapper.add_values vs self)
    = FeatureMapper._num_std self /\
  FeatureMapper._size_std (FeatureMapper.add_values vs self)
    = FeatureMapper._size_std self.
Proof.
  unfold FeatureMapper.add_values. revert self.
  induction vs as [|v vs IH]; intros self; simpl; [done|].
  destruct (IH (FeatureMapper.add_value v self)) as [-> ->]. done.
Qed.

Lemma num_bin_default (self : FeatureMapper.t) :
  FeatureMapper._num_std self = FeatureMapper._num_std FeatureMapper.new ->
  FeatureMapper._size_std self = FeatureMapper._size_std FeatureMapper.new ->
  FeatureMapper.num_bin_of self = Ok 8.
Proof.
  intros Hn Hs. unfold FeatureMapper.num_bin_of. rewrite Hn, Hs.
  vm_compute. reflexivity.
Qed.

Section FeatureMapperFacts.
Context `{!Numpy}.

(** With the default hyperparameters [fit] always returns: [2 / 0.5] is
    [4.0] and [num_bin] is 8. *)
Lemma fit_default_ok (self : FeatureMapper.t) :
  FeatureMapper._num_std self = FeatureMapper._num_std FeatureMapper.new ->
  FeatureMapper._size_std self = FeatureMapper._size_std FeatureMapper.new ->
  exists fitted,
    FeatureMapper.fit self = Ok fitted /\
    FeatureMapper._std_bins fitted =
      (let sd := np_std (FeatureMapper.values self) in
       let range_start :=
         Float64.sub (np_mean (FeatureMapper.values self))
                     (Float64.mul sd (FeatureMapper._num_std self)) in
       range_start ::
         FeatureMapper.fit_loop 8 sd (FeatureMapper._size_std self) range_start).
Proof.
  intros Hn Hs. unfold FeatureMapper.fit.
  rewrite (num_bin_default self Hn Hs).
  eexists. split; [reflexivity|]. reflexivity.
Qed.

(** [fit] leaves the collected values alone and records the statistics. *)
Lemma fit_fields (self fitted : FeatureMapper.t) :
  FeatureMapper.fit self = Ok fitted ->
  FeatureMapper.values fitted = FeatureMapper.values self /\
  FeatureMapper.mean fitted = Some (np_mean (FeatureMapper.values self)) /\
  FeatureMapper.std fitted = Some (np_std (FeatureMapper.values self)).
Proof.
  unfold FeatureMapper.fit.
  destruct (FeatureMapper.num_bin_of self) as [n|]; [|done].
  by intros [= <-].
Qed.

End FeatureMapperFacts.

(** C5: for every mapper fitted on a non-empty list of values and all
    lookup values [v1 < v2], [map_bucket v1 <= map_bucket v2]. *)
Theorem C5_map_bucket_monotone `{!Numpy} (self fitted : FeatureMapper.t)
    (v1 v2 : float) :
  FeatureMapper.values self <> [] ->
  FeatureMapper.fit self = Ok fitted ->
  Float64.ltb v1 v2 = true ->
  (FeatureMapper.map_bucket fitted v1 <= FeatureMapper.map_bucket fitted v2)%nat.
Proof.
  intros _ _ Hlt. unfold FeatureMapper.map_bucket.
  by apply np_searchsorted_mono.
Qed.

Lemma C5_map_bucket_monotone_witness :
  FeatureMapper.values sample_mapper <> [] /\
  exists fitted,
    @FeatureMapper.fit numpy64 sample_mapper = Ok fitted /\
    Float64.ltb (Float64.of_Z 1) (Float64.of_Z 4) = true /\
    (FeatureMapper.map_bucket fitted (Float64.of_Z 1)
       <= FeatureMapper.map_bucket fitted (Float64.of_Z 4))%nat.
Proof.
  split; [discriminate|].
  eexists. split; [vm_compute; reflexivity|]. split; [reflexivity|].
  apply (@C5_map_bucket_monotone numpy64 sample_mapper);
    [discriminate | vm_compute; reflexivity | reflexivity].
Defined.

(** C2, at a lookup value that is itself a boundary: the mapper fitted on
    1 and 5 has the boundaries -1, 0, 1, ..., 7.  Five of them are at or
    below 3.0, and the class docstring puts 3.0 into bucket 5, the
    interval from 3 (included) to 4; [map_bucket 3.0] is 4, the number
    of boundaries strictly below 3.0. *)
Theorem C2_map_bucket_at_boundary :
  exists fitted,
    @FeatureMapper.fit numpy64 len_mapper = Ok fitted /\
    FeatureMapper._std_bins fitted
      = Float64.of_Z <$> [-1; 0; 1; 2; 3; 4; 5; 6; 7] /\
    count_not_above (FeatureMapper._std_bins fitted) (Float64.of_Z 3) = 5%nat /\
    count_below (FeatureMapper._std_bins fitted) (Float64.of_Z 3) = 4%nat /\
    FeatureMapper.map_bucket fitted (Float64.of_Z 3) = 4%nat.
Proof.
  eexists. split; [vm_compute; reflexivity|].
  repeat split; vm_compute; reflexivity.
Qed.

(** C3 as stated fails: after fitting on 1.0, 1.0, 1.0 there is one
    boundary, and lookups on either side of it get different buckets. *)
Lemma C3_constant_values_counterexample :
  ~ (forall fitted,
       @FeatureMapper.fit numpy64
         (FeatureMapper.add_values (replicate 3 (Float64.of_Z 1))
            FeatureMapper.new) = Ok fitted ->
       length (FeatureMapper._std_bins fitted) = 1%nat /\
       forall v1 v2,
         FeatureMapper.map_bucket fitted v1 = FeatureMapper.map_bucket fitted v2).
Proof.
  intros H.
  destruct (@FeatureMapper.fit numpy64 _) as [fitted|] eqn:E;
    [|vm_compute in E; discriminate].
  destruct (H fitted eq_refl) as [_ Hsame].
  specialize (Hsame (Float64.of_Z 0) (Float64.of_Z 2)).
  vm_compute in E. injection E as <-. vm_compute in Hsame. discriminate.
Qed.

(** The same happens on inexact data: the tenth nearest to 0.1, three
    times, has a computed standard deviation of 2^-56, above [ZERO], and
    fit keeps nine boundaries. *)
Example constant_tenths_nine_boundaries :
  let tenth := S754_finite false 7205759403792794 (-56) in
  exists fitted,
    @FeatureMapper.fit numpy64
      (FeatureMapper.add_values (replicate 3 tenth) FeatureMapper.new)
      = Ok fitted /\
    FeatureMapper.std fitted = Some (S754_finite false 4503599627370496 (-108)) /\
    length (FeatureMapper._std_bins fitted) = 9%nat.
Proof.
  eexists. split; [vm_compute; reflexivity|]. split; vm_compute; reflexivity.
Qed.

Lemma ltb_np_less_true (b v : float) :
  Float64.ltb b v = true -> np_less b v = true.
Proof. intros Hlt. unfold np_less. by rewrite Hlt. Qed.

Lemma ltb_np_less_false (v b : float) :
  Float64.ltb v b = true -> np_less b v = false.
Proof.
  unfold np_less, Float64.ltb, Float64.is_nan, SFltb, SFcompare.
  destruct v as [[]|[]| |[] mv ev], b as [[]|[]| |[] mb eb]; try done;
    fold_pos_compare;
    destruct (Z.compare_spec ev eb), (Z.compare_spec eb ev); try done;
    try lia; subst;
    destruct (Pos.compare_spec mv mb), (Pos.compare_spec mb mv); simpl;
    try done; try lia.
Qed.

(** C3, amended: for a mapper whose collected values are a non-empty list
    of identical values, whenever the computed standard deviation does
    not exceed [ZERO] and [fit] returns (it does as soon as [num_bin] can
    be computed), [fit] yields exactly one boundary,
    [mean - std * num_std]; [map_bucket] is then 0 for the lookups below
    that boundary and 1 for the lookups above it. *)
Theorem C3_constant_values_single_boundary `{!Numpy}
    (self : FeatureMapper.t) (c : float) (n : nat) :
  FeatureMapper.values self = replicate (S n) c ->
  Float64.gtb (np_std (FeatureMapper.values self)) ZERO = false ->
  (forall num_bin,
     FeatureMapper.num_bin_of self = Ok num_bin ->
     exists fitted, FeatureMapper.fit self = Ok fitted) /\
  forall fitted,
    FeatureMapper.fit self = Ok fitted ->
    exists boundary,
      boundary = Float64.sub (np_mean (FeatureMapper.values self))
                   (Float64.mul (np_std (FeatureMapper.values self))
                      (FeatureMapper._num_std self)) /\
      FeatureMapper._std_bins fitted = [boundary] /\
      forall v,
        (Float64.ltb v boundary = true ->
         FeatureMapper.map_bucket fitted v = 0%nat) /\
        (Float64.ltb boundary v = true ->
         FeatureMapper.map_bucket fitted v = 1%nat).
Proof.
  intros _ Hsd. unfold FeatureMapper.fit. split.
  - intros num_bin ->. cbn [mbind result_bind]. by eexists.
  - intros fitted.
    destruct (FeatureMapper.num_bin_of self) as [num_bin|];
      cbn [mbind result_bind]; [|done].
    intros [= <-]. eexists. split; [reflexivity|].
    cbn [FeatureMapper._std_bins]. rewrite fit_loop_stop by done.
    split; [done|]. intros v. unfold FeatureMapper.map_bucket.
    cbn [FeatureMapper._std_bins]. rewrite np_searchsorted_singleton.
    split; intros Hlt.
    + by rewrite (ltb_np_less_false _ _ Hlt).
    + by rewrite (ltb_np_less_true _ _ Hlt).
Qed.

Lemma C3_constant_values_single_boundary_witness :
  let self :=
    FeatureMapper.add_values (replicate 3 (Float64.of_Z 1)) FeatureMapper.new in
  FeatureMapper.values self = replicate 3 (Float64.of_Z 1) /\
  Float64.gtb (std64 (FeatureMapper.values self)) ZERO = false /\
  exists fitted,
    @FeatureMapper.fit numpy64 self = Ok fitted /\
    FeatureMapper._std_bins fitted = [Float64.of_Z 1] /\
    FeatureMapper.map_bucket fitted (Float64.of_Z 0) = 0%nat /\
    FeatureMapper.map_bucket fitted (Float64.of_Z 2) = 1%nat.
Proof.
  intros self.
  assert (FeatureMapper.values self = replicate 3 (Float64.of_Z 1)) as Hvs
    by reflexivity.
  assert (Float64.gtb (std64 (FeatureMapper.values self)) ZERO = false) as Hsd
    by (vm_compute; reflexivity).
  split; [exact Hvs|]. split; [exact Hsd|].
  destruct (@C3_constant_values_single_boundary numpy64 self (Float64.of_Z 1)
              2 Hvs Hsd) as [Hreturns Hone].
  destruct (Hreturns 8) as [fitted Hfit]; [vm_compute; reflexivity|].
  destruct (Hone fitted Hfit) as (boundary & Hb & Hbins & Hmap).
  assert (boundary = Float64.of_Z 1) as Hb1
    by (rewrite Hb; vm_compute; reflexivity).
  rewrite Hb1 in Hbins, Hmap.
  exists fitted. split; [exact Hfit|]. split; [exact Hbins|]. split.
  - apply (proj1 (Hmap (Float64.of_Z 0))). vm_compute. reflexivity.
  - apply (proj2 (Hmap (Float64.of_Z 2))). vm_compute. reflexivity.
Defined.

(** C4 as stated fails for a negative ratio of the hyperparameters: with
    [num_std = -0.25] and [size_std = 0.5] on the values 1..5 the deviation
    exceeds [ZERO] and the floor of the ratio is -1, so the stated count
    [2 * floor + 1] is -1, while [int] truncates the ratio to 0 and [fit]
    keeps one boundary. *)
Lemma C4_negative_ratio_counterexample :
  FeatureMapper.values negative_ratio_mapper <> [] /\
  Float64.gtb (std64 (FeatureMapper.values negative_ratio_mapper)) ZERO = true /\
  Float64.floor
    (Float64.div (FeatureMapper._num_std negative_ratio_mapper)
       (FeatureMapper._size_std negative_ratio_mapper)) = Some (-1) /\
  ~ (forall fitted,
       @FeatureMapper.fit numpy64 negative_ratio_mapper = Ok fitted ->
       Z.of_nat (length (FeatureMapper._std_bins fitted)) = 2 * (-1) + 1).
Proof.
  split; [discriminate|]. split; [vm_compute; reflexivity|].
  split; [vm_compute; reflexivity|].
  intros Hclaim.
  destruct (@FeatureMapper.fit numpy64 negative_ratio_mapper) as [fitted|] eqn:E;
    [|vm_compute in E; discriminate].
  specialize (Hclaim fitted eq_refl). lia.
Qed.

(** C4, amended: a mapper with a non-empty list of values whose standard
    deviation exceeds [ZERO], and whose ratio [num_std / size_std] is
    defined and finite with a floor that is not negative, fitted, has
    [bin_count + 1] boundaries for
    [bin_count = 2 * floor (num_std / size_std)]; the first is
    [mean - std * num_std] and each next one is the previous one plus
    [std * size_std].  With the defaults and the values 1..5 the mean is
    3, the deviation is [sqrt 2], there are 9 boundaries from
    [3 - 2 * sqrt 2] in steps of [sqrt 2 / 2], and the lookups -100 and
    100 fall in the buckets 0 and 9. *)
Theorem C4_fit_boundaries :
  (forall (np : Numpy) (self : FeatureMapper.t) (q : float) (k : Z),
     FeatureMapper.values self <> [] ->
     Float64.gtb (np_std (FeatureMapper.values self)) ZERO = true ->
     py_truediv (FeatureMapper._num_std self) (FeatureMapper._size_std self)
       = Ok q ->
     Float64.floor q = Some k ->
     0 <= k ->
     exists fitted,
       FeatureMapper.fit self = Ok fitted /\
       let bins := FeatureMapper._std_bins fitted in
       let sd := np_std (FeatureMapper.values self) in
       let bin_count := 2 * k in
       Z.of_nat (length bins) = bin_count + 1 /\
       bins !! 0%nat
         = Some (Float64.sub (np_mean (FeatureMapper.values self))
                   (Float64.mul sd (FeatureMapper._num_std self))) /\
       forall (i : nat) (b : float),
         Z.of_nat i < bin_count ->
         bins !! i = Some b ->
         bins !! S i
           = Some (Float64.add b (Float64.mul sd (FeatureMapper._size_std self))))
  /\
  (exists fitted,
     @FeatureMapper.fit numpy64 sample_mapper = Ok fitted /\
     let bins := FeatureMapper._std_bins fitted in
     let sqrt2 := Float64.sqrt (Float64.of_Z 2) in
     FeatureMapper.mean fitted = Some (Float64.of_Z 3) /\
     FeatureMapper.std fitted = Some sqrt2 /\
     length bins = 9%nat /\
     bins !! 0%nat
       = Some (Float64.sub (Float64.of_Z 3) (Float64.mul (Float64.of_Z 2) sqrt2)) /\
     (forall (i : nat) (b : float),
        (i < 8)%nat ->
        bins !! i = Some b ->
        bins !! S i = Some (Float64.add b (Float64.div sqrt2 (Float64.of_Z 2)))) /\
     FeatureMapper.map_bucket fitted (Float64.of_Z (-100)) = 0%nat /\
     FeatureMapper.map_bucket fitted (Float64.of_Z 100) = 9%nat).
Proof.
  split.
  - intros np self q k _ Hsd Hq Hfloor Hk.
    unfold FeatureMapper.fit, FeatureMapper.num_bin_of.
    rewrite Hq. cbn [mbind result_bind].
    rewrite (floor_nonneg_py_int q k Hfloor Hk). cbn [mbind result_bind].
    eexists. split; [reflexivity|]. cbn [FeatureMapper._std_bins].
    split; [|split; [done|]].
    + cbn [length]. rewrite fit_loop_length by done. lia.
    + intros i b Hi Hb. apply fit_loop_step; [done|lia|done].
  - eexists. split; [vm_compute; reflexivity|].
    repeat split; try (vm_compute; reflexivity).
    intros i b Hi.
    do 8 (destruct i as [|i];
          [intros [= <-]; vm_compute; reflexivity|]).
    lia.
Qed.

Lemma C4_fit_boundaries_witness :
  FeatureMapper.values sample_mapper <> [] /\
  Float64.gtb (std64 (FeatureMapper.values sample_mapper)) ZERO = true /\
  py_truediv (FeatureMapper._num_std sample_mapper)
    (FeatureMapper._size_std sample_mapper) = Ok (Float64.of_Z 4) /\
  Float64.floor (Float64.of_Z 4) = Some 4 /\
  exists fitted,
    @FeatureMapper.fit numpy64 sample_mapper = Ok fitted /\
    Z.of_nat (length (FeatureMapper._std_bins fitted)) = 2 * 4 + 1.
Proof.
  split; [discriminate|]. split; [vm_compute; reflexivity|].
  split; [vm_compute; reflexivity|]. split; [vm_compute; reflexivity|].
  destruct (proj1 C4_fit_boundaries numpy64 sample_mapper (Float64.of_Z 4) 4)
    as (fitted & Hfit & Hlen & _);
    [discriminate | vm_compute; reflexivity | vm_compute; reflexivity
    | vm_compute; reflexivity | lia |].
  exists fitted. split; [exact Hfit | exact Hlen].
Defined.

(** ** Dictionaries and loops *)

Lemma dict_get_set_eq {V} (d : pydict V) k v :
  dict_get (dict_set d k v) k = Some v.
Proof.
  induction d as [|[k' v'] d IH]; simpl.
  - by rewrite String.eqb_refl.
  - destruct (String.eqb k k') eqn:E; simpl; rewrite ?String.eqb_refl, ?E; done.
Qed.

Lemma dict_get_set_ne {V} (d : pydict V) k k' v :
  k <> k' -> dict_get (dict_set d k v) k' = dict_get d k'.
Proof.
  intros Hne. induction d as [|[k0 v0] d IH]; simpl.
  - apply not_eq_sym, String.eqb_neq in Hne. by rewrite Hne.
  - destruct (String.eqb k k0) eqn:E; simpl.
    + apply String.eqb_eq in E as <-.
      apply not_eq_sym, String.eqb_neq in Hne. by rewrite Hne.
    + by rewrite IH.
Qed.

Lemma dict_get_Some_keys {V} (d : pydict V) k v :
  dict_get d k = Some v -> k ∈ dict_keys d.
Proof.
  induction d as [|[k' v'] d IH]; simpl; [done|].
  destruct (String.eqb k k') eqn:E.
  - apply String.eqb_eq in E as <-. intros _. apply list_elem_of_here.
  - intros H. apply list_elem_of_further. by apply IH.
Qed.

Lemma for_each_invariant {S A} (P : S -> Prop) (body : S -> A -> result S)
    (l : list A) (s s' : S) :
  (forall s x s', P s -> body s x = Ok s' -> P s') ->
  P s -> for_each body s l = Ok s' -> P s'.
Proof.
  intros Hstep. revert s.
  induction l as [|x l IH]; intros s Hs; simpl.
  - by intros [= <-].
  - destruct (body s x) as [s1|] eqn:E; simpl; [|done]. eauto.
Qed.

Lemma mapM_result_lookup {A B} (f : A -> result B) (l : list A) (l' : list B)
    (i : nat) (x : A) :
  mapM f l = Ok l' -> l !! i = Some x ->
  exists y, l' !! i = Some y /\ f x = Ok y.
Proof.
  revert l' i. induction l as [|a l IH]; intros l' i; simpl; [done|].
  destruct (f a) as [b|] eqn:Ea; simpl; [|done].
  destruct (mapM f l) as [k|] eqn:Ek; simpl; [|done].
  intros [= <-]. destruct i as [|i]; simpl.
  - intros [= <-]. eauto.
  - intros Hi. by apply IH.
Qed.

Lemma mapM_result_length {A B} (f : A -> result B) (l : list A) (l' : list B) :
  mapM f l = Ok l' -> length l' = length l.
Proof.
  revert l'. induction l as [|a l IH]; intros l'; simpl.
  - by intros [= <-].
  - destruct (f a) as [b|]; simpl; [|done].
    destruct (mapM f l) as [k|]; simpl; [|done].
    intros [= <-]. simpl. by rewrite (IH k).
Qed.

Lemma mapM_result_ok {A B} (f : A -> result B) (l : list A) :
  (forall i x, l !! i = Some x -> exists y, f x = Ok y) ->
  exists l', mapM f l = Ok l'.
Proof.
  induction l as [|a l IH]; intros H; simpl; [by eexists|].
  destruct (H 0%nat a eq_refl) as [b ->]. simpl.
  destruct IH as [k ->]; [|simpl; by eexists].
  intros i x Hi. by apply (H (S i)).
Qed.

(** ** FeatureBinner *)

Section FeatureBinnerFacts.
Context `{!PyBuiltins}.

Lemma map_feature_singleton (self : FeatureBinner.t) name value d :
  FeatureBinner._map_feature self name value = Ok d ->
  exists v', d = [(name, v')].
Proof.
  unfold FeatureBinner._map_feature.
  destruct (py_float value) as [f|[]]; try done.
  - destruct (_ !! name); intros [= <-]; eauto.
  - intros [= <-]. eauto.
Qed.

Lemma map_feature_unmapped (self : FeatureBinner.t) name value f :
  py_float value = Ok f ->
  FeatureBinner.features self !! name = None ->
  FeatureBinner._map_feature self name value = Ok [(name, PyFloat f)].
Proof. intros Hf Hm. unfold FeatureBinner._map_feature. by rewrite Hf, Hm. Qed.

(** One turn of the inner loop of [transform] sets the key it visits and
    no other. *)
Lemma transform_item_set (self : FeatureBinner.t) acc kv acc' :
  FeatureBinner.transform_item self acc kv = Ok acc' ->
  exists v',
    FeatureBinner._map_feature self kv.1 kv.2 = Ok [(kv.1, v')] /\
    acc' = dict_set acc kv.1 v'.
Proof.
  unfold FeatureBinner.transform_item.
  destruct (FeatureBinner._map_feature _ _ _) as [d|] eqn:E; simpl; [|done].
  destruct (map_feature_singleton _ _ _ _ E) as [v' ->].
  intros [= <-]. eauto.
Qed.

Lemma transform_items_other (self : FeatureBinner.t) (w : word) acc w' k :
  for_each (FeatureBinner.transform_item self) acc w = Ok w' ->
  k ∉ dict_keys w ->
  dict_get w' k = dict_get acc k.
Proof.
  revert acc. induction w as [|kv w IH]; intros acc; simpl.
  - by intros [= <-].
  - destruct (FeatureBinner.transform_item _ _ _) as [acc1|] eqn:E; simpl;
      [|done].
    destruct (transform_item_set _ _ _ _ E) as (v' & _ & ->).
    intros Hrest Hk. apply not_elem_of_cons in Hk as [Hne Hk].
    rewrite (IH _ Hrest Hk). by apply dict_get_set_ne.
Qed.

Lemma transform_items_get (self : FeatureBinner.t) (w : word) acc w' k v v' :
  NoDup (dict_keys w) -> (k, v) ∈ w ->
  FeatureBinner._map_feature self k v = Ok [(k, v')] ->
  for_each (FeatureBinner.transform_item self) acc w = Ok w' ->
  dict_get w' k = Some v'.
Proof.
  intros Hnd Hin Hmap. revert acc Hnd Hin.
  induction w as [|kv w IH]; intros acc Hnd Hin; [by apply elem_of_nil in Hin|].
  simpl. destruct (FeatureBinner.transform_item _ _ _) as [acc1|] eqn:E;
    simpl; [|done].
  destruct (transform_item_set _ _ _ _ E) as (v1 & Hv1 & ->).
  unfold dict_keys in Hnd. rewrite fmap_cons in Hnd.
  apply NoDup_cons in Hnd as [Hfresh Hnd].
  intros Hrest. apply elem_of_cons in Hin as [<-|Hin].
  - simpl in *. rewrite Hmap in Hv1. injection Hv1 as <-.
    rewrite (transform_items_other _ _ _ _ _ Hrest Hfresh).
    apply dict_get_set_eq.
  - by apply (IH (dict_set acc kv.1 v1)).
Qed.

Lemma transform_lookup (self : FeatureBinner.t) (X X' : dataset) s i sent w :
  FeatureBinner.transform self X = Ok X' ->
  X !! s = Some sent -> sent !! i = Some w ->
  exists sent' w',
    X' !! s = Some sent' /\ sent' !! i = Some w' /\
    FeatureBinner.transform_word self w = Ok w'.
Proof.
  intros HX Hs Hi. unfold FeatureBinner.transform in HX.
  destruct (mapM_result_lookup _ _ _ _ _ HX Hs) as (sent' & Hs' & Hsent).
  destruct (mapM_result_lookup _ _ _ _ _ Hsent Hi) as (w' & Hw' & Hw).
  eauto.
Qed.

(** C10: a value that coerces to the float [f], under a name without a
    fitted mapper, is mapped to the pair of that name and the float [f],
    and the transformed token holds the float under the name; so the
    string 5 comes out as 5.0. *)
Theorem C10_unmapped_numeric_value_is_coerced (self : FeatureBinner.t)
    (name : string) (value : pyval) (f : float) :
  py_float value = Ok f ->
  FeatureBinner.features self !! name = None ->
  FeatureBinner._map_feature self name value = Ok [(name, PyFloat f)] /\
  forall (w w' : word),
    NoDup (dict_keys w) -> (name, value) ∈ w ->
    FeatureBinner.transform_word self w = Ok w' ->
    dict_get w' name = Some (PyFloat f).
Proof.
  intros Hf Hm. split; [by apply map_feature_unmapped|].
  intros w w' Hnd Hin Hw.
  apply (transform_items_get self w [] w' name value); auto.
  by apply map_feature_unmapped.
Qed.

(** C1, amended: when a dataset is transformed, a feature whose value
    coerces to a number under a name without a fitted mapper is kept in
    the corresponding output token, under the same name, holding the
    coerced float. *)
Theorem C1_unmapped_numeric_feature_is_kept (self : FeatureBinner.t)
    (X X' : dataset) (s i : nat) (sent : sentence) (w : word)
    (name : string) (value : pyval) (f : float) :
  FeatureBinner.transform self X = Ok X' ->
  X !! s = Some sent -> sent !! i = Some w ->
  NoDup (dict_keys w) -> (name, value) ∈ w ->
  py_float value = Ok f ->
  FeatureBinner.features self !! name = None ->
  exists sent' w',
    X' !! s = Some sent' /\ sent' !! i = Some w' /\
    name ∈ dict_keys w' /\ dict_get w' name = Some (PyFloat f).
Proof.
  intros HX Hs Hi Hnd Hin Hf Hm.
  destruct (transform_lookup _ _ _ _ _ _ _ HX Hs Hi) as (sent' & w' & ? & ? & Hw).
  exists sent', w'. split; [done|]. split; [done|].
  assert (dict_get w' name = Some (PyFloat f)) as Hget.
  { apply (transform_items_get self w [] w' name value); auto.
    by apply map_feature_unmapped. }
  split; [by eapply dict_get_Some_keys|done].
Qed.

End FeatureBinnerFacts.

Lemma C10_unmapped_numeric_value_is_coerced_witness :
  @py_float decimal_builtins (PyStr "5") = Ok (Float64.of_Z 5) /\
  FeatureBinner.features FeatureBinner.init !! "x" = None /\
  @FeatureBinner._map_feature decimal_builtins FeatureBinner.init "x" (PyStr "5")
    = Ok [("x", PyFloat (Float64.of_Z 5))].
Proof.
  split; [vm_compute; reflexivity|]. split; [reflexivity|].
  apply (@C10_unmapped_numeric_value_is_coerced decimal_builtins
           FeatureBinner.init "x" (PyStr "5") (Float64.of_Z 5));
    [vm_compute; reflexivity | reflexivity].
Defined.

Example sample_binner_fitted :
  @FeatureBinner.fit decimal_builtins numpy64 FeatureBinner.init sample_train
    = Ok sample_binner.
Proof. vm_compute. reflexivity. Qed.

Lemma C1_unmapped_numeric_feature_is_kept_witness :
  @FeatureBinner.transform decimal_builtins sample_binner sample_test
    = Ok [[ [("len", PyInt 4); ("x", PyFloat (Float64.of_Z 5))] ]] /\
  @py_float decimal_builtins (PyStr "5") = Ok (Float64.of_Z 5) /\
  FeatureBinner.features sample_binner !! "x" = None /\
  exists sent' w',
    [[ [("len", PyInt 4); ("x", PyFloat (Float64.of_Z 5))] ]] !! 0%nat
      = Some sent' /\
    sent' !! 0%nat = Some w' /\
    "x" ∈ dict_keys w' /\ dict_get w' "x" = Some (PyFloat (Float64.of_Z 5)).
Proof.
  split; [vm_compute; reflexivity|]. split; [vm_compute; reflexivity|].
  split; [vm_compute; reflexivity|].
  apply (@C1_unmapped_numeric_feature_is_kept decimal_builtins sample_binner
           sample_test _ 0%nat 0%nat
           [ [("len", PyInt 3); ("x", PyStr "5")] ]
           [("len", PyInt 3); ("x", PyStr "5")] "x" (PyStr "5"));
    [vm_compute; reflexivity | reflexivity | reflexivity
    | | | vm_compute; reflexivity | vm_compute; reflexivity].
  - apply NoDup_cons. split; [|apply NoDup_singleton].
    intros H. apply list_elem_of_singleton in H. discriminate.
  - apply list_elem_of_further, list_elem_of_here.
Defined.

(** C1 as stated fails: the binner fitted on [sample_train] has no mapper
    for x, the string 5 coerces to 5.0, and the transformed token still
    has the key x. *)
Lemma C1_dropped_counterexample :
  @py_float decimal_builtins (PyStr "5") = Ok (Float64.of_Z 5) /\
  FeatureBinner.features sample_binner !! "x" = None /\
  ~ (forall X' sent' w',
       @FeatureBinner.transform decimal_builtins sample_binner sample_test
         = Ok X' ->
       X' !! 0%nat = Some sent' -> sent' !! 0%nat = Some w' ->
       "x" ∉ dict_keys w').
Proof.
  split; [vm_compute; reflexivity|]. split; [vm_compute; reflexivity|].
  intros H.
  apply (H [[ [("len", PyInt 4); ("x", PyFloat (Float64.of_Z 5))] ]]
           [ [("len", PyInt 4); ("x", PyFloat (Float64.of_Z 5))] ]
           [("len", PyInt 4); ("x", PyFloat (Float64.of_Z 5))]);
    [vm_compute; reflexivity | reflexivity | reflexivity |].
  apply list_elem_of_further, list_elem_of_here.
Qed.

(** C7, at a value that is no number and no string: [float(None)] is a
    [TypeError], which neither [fit] nor [transform] catches. *)
Theorem C7_none_value_raises_type_error `{!PyBuiltins, !Numpy} :
  FeatureBinner.fit FeatureBinner.init [[ [("f", PyNone)] ]] = Raise TypeError /\
  FeatureBinner.transform FeatureBinner.init [[ [("f", PyNone)] ]]
    = Raise TypeError.
Proof. split; reflexivity. Qed.

Section FeatureBinnerFit.
Context `{!PyBuiltins, !Numpy}.

Lemma nonempty_mappers_init : FeatureBinner.nonempty_mappers FeatureBinner.init.
Proof.
  intros name mapper Hm. cbn [FeatureBinner.features FeatureBinner.init] in Hm.
  by rewrite lookup_empty in Hm.
Qed.

(** A mapper enters the dictionary together with the value just coerced. *)
Lemma collect_feature_nonempty (self self' : FeatureBinner.t) name value :
  FeatureBinner.nonempty_mappers self ->
  FeatureBinner._collect_feature self name value = Ok self' ->
  FeatureBinner.nonempty_mappers self'.
Proof.
  intros Hinv. unfold FeatureBinner._collect_feature.
  destruct (py_float value) as [f|[]]; try done; intros [= <-]; [|done].
  intros k mapper. simpl. rewrite lookup_insert. case_decide as Hk.
  - intros [= <-]. simpl. intros Happ.
    by apply app_eq_nil in Happ as [_ ?].
  - apply Hinv.
Qed.

Lemma collect_nonempty (self self' : FeatureBinner.t) (X : dataset) :
  FeatureBinner.nonempty_mappers self ->
  FeatureBinner.collect self X = Ok self' ->
  FeatureBinner.nonempty_mappers self'.
Proof.
  unfold FeatureBinner.collect. intros Hinv.
  apply for_each_invariant; [|done].
  intros s1 sent s1' Hs1. apply for_each_invariant; [|done].
  intros s2 w s2' Hs2. apply for_each_invariant; [|done].
  intros s3 kv s3' Hs3. by apply collect_feature_nonempty.
Qed.

(** The loop over [self.features.values()] replaces every mapper by its
    fitted version and touches nothing else. *)
Lemma fit_each_lookup (l : list (string * FeatureMapper.t))
    (acc self' : FeatureBinner.t) name fitted :
  for_each (fun self kv =>
      mapper ← FeatureMapper.fit kv.2;
      Ok {| FeatureBinner.features :=
              <[kv.1 := mapper]> (FeatureBinner.features self) |})
    acc l = Ok self' ->
  FeatureBinner.features self' !! name = Some fitted ->
  (exists mapper, (name, mapper) ∈ l /\ FeatureMapper.fit mapper = Ok fitted) \/
  ((name ∉ l.*1) /\ FeatureBinner.features acc !! name = Some fitted).
Proof.
  revert acc. induction l as [|[k m] l IH]; intros acc; simpl.
  - intros [= <-] Hm. right. split; [apply not_elem_of_nil|done].
  - destruct (FeatureMapper.fit m) as [m'|] eqn:Em; simpl; [|done].
    intros Hrest Hlook.
    destruct (IH _ Hrest Hlook) as [(mapper & Hin & Hfit)|[Hnot Hacc]].
    + left. exists mapper. split; [by apply list_elem_of_further|done].
    + simpl in Hacc. rewrite lookup_insert in Hacc. case_decide as Hk.
      * injection Hacc as <-. subst k. left. exists m.
        split; [apply list_elem_of_here|done].
      * right. split; [|done].
        apply not_elem_of_cons. split; [by apply not_eq_sym|done].
Qed.

Lemma fit_mappers_lookup (self self' : FeatureBinner.t) name fitted :
  FeatureBinner.fit_mappers self = Ok self' ->
  FeatureBinner.features self' !! name = Some fitted ->
  exists mapper,
    FeatureBinner.features self !! name = Some mapper /\
    FeatureMapper.fit mapper = Ok fitted.
Proof.
  unfold FeatureBinner.fit_mappers. intros Hfit Hlook.
  destruct (fit_each_lookup _ _ _ _ _ Hfit Hlook)
    as [(mapper & Hin & Hm)|[Hnot Hself]].
  - exists mapper. split; [|done]. by apply elem_of_map_to_list in Hin.
  - exfalso. apply Hnot. apply list_elem_of_fmap.
    exists (name, fitted). split; [done|]. by apply elem_of_map_to_list.
Qed.

(** C9, amended: when [FeatureBinner.fit] runs on a binner whose mappers all
    hold a value (the new binner has no mapper at all), every mapper in the
    dictionary after the collection loops holds at least one value, and
    every mapper of the fitted binner is the result of [FeatureMapper.fit]
    on such a mapper: its mean and standard deviation are [np.mean] and
    [np.std] of a non-empty list (finite or not). *)
Theorem C9_mappers_fit_on_collected_values (self fitted : FeatureBinner.t)
    (X : dataset) :
  FeatureBinner.nonempty_mappers self ->
  FeatureBinner.fit self X = Ok fitted ->
  exists collected,
    FeatureBinner.collect self X = Ok collected /\
    FeatureBinner.fit_mappers collected = Ok fitted /\
    (forall name mapper,
       FeatureBinner.features collected !! name = Some mapper ->
       FeatureMapper.values mapper <> []) /\
    (forall name mapper',
       FeatureBinner.features fitted !! name = Some mapper' ->
       exists mapper,
         FeatureBinner.features collected !! name = Some mapper /\
         FeatureMapper.fit mapper = Ok mapper' /\
         FeatureMapper.values mapper <> [] /\
         FeatureMapper.mean mapper' = Some (np_mean (FeatureMapper.values mapper)) /\
         FeatureMapper.std mapper' = Some (np_std (FeatureMapper.values mapper))).
Proof.
  intros Hinv. unfold FeatureBinner.fit.
  destruct (FeatureBinner.collect self X) as [collected|] eqn:Ec; simpl; [|done].
  intros Hfit. exists collected.
  pose proof (collect_nonempty _ _ _ Hinv Ec) as Hne.
  split; [done|]. split; [done|]. split; [exact Hne|].
  intros name mapper' Hlook.
  destruct (fit_mappers_lookup _ _ _ _ Hfit Hlook) as (mapper & Hm & Hmfit).
  exists mapper. split; [done|]. split; [done|]. split; [by eapply Hne|].
  by destruct (fit_fields _ _ Hmfit) as (_ & ? & ?).
Qed.

End FeatureBinnerFit.

Lemma C9_mappers_fit_on_collected_values_witness :
  FeatureBinner.nonempty_mappers FeatureBinner.init /\
  @FeatureBinner.fit decimal_builtins numpy64 FeatureBinner.init sample_train
    = Ok sample_binner /\
  exists collected,
    @FeatureBinner.collect decimal_builtins FeatureBinner.init sample_train
      = Ok collected /\
    forall name mapper,
      FeatureBinner.features collected !! name = Some mapper ->
      FeatureMapper.values mapper <> [].
Proof.
  split; [intros name mapper Hm; vm_compute in Hm; discriminate|].
  split; [vm_compute; reflexivity|].
  destruct (@C9_mappers_fit_on_collected_values decimal_builtins numpy64
              FeatureBinner.init sample_binner sample_train)
    as (collected & Hc & _ & Hne & _);
    [intros name mapper Hm; vm_compute in Hm; discriminate
    | vm_compute; reflexivity |].
  exists collected. split; [exact Hc | exact Hne].
Defined.

(** C9 as stated fails in its last part: [fit] on a new binner with the
    value [10 ** 308] twice under one name returns, the mapper holds the
    two finite values, and their sum overflows: the mean is infinite, the
    deviation is infinite and the first boundary is NaN. *)
Lemma C9_well_defined_counterexample :
  FeatureMapper.values huge_mapper
    = [Float64.of_Z (10 ^ 308); Float64.of_Z (10 ^ 308)] /\
  Float64.is_finite (Float64.of_Z (10 ^ 308)) = true /\
  FeatureMapper._std_bins huge_mapper !! 0%nat = Some S754_nan /\
  ~ (forall fitted name mapper,
       @FeatureBinner.fit decimal_builtins numpy64 FeatureBinner.init huge_train
         = Ok fitted ->
       FeatureBinner.features fitted !! name = Some mapper ->
       FeatureMapper.values mapper <> [] /\
       exists m s,
         FeatureMapper.mean mapper = Some m /\
         FeatureMapper.std mapper = Some s /\
         Float64.is_finite m = true /\ Float64.is_finite s = true).
Proof.
  split; [vm_compute; reflexivity|]. split; [vm_compute; reflexivity|].
  split; [vm_compute; reflexivity|].
  intros Hclaim.
  destruct (Hclaim huge_binner "f" huge_mapper)
    as (_ & m & s & Hm & _ & Hfin & _);
    [vm_compute; reflexivity | vm_compute; reflexivity |].
  vm_compute in Hm. injection Hm as <-. discriminate.
Qed.

(** *** When fit and transform return *)

Lemma for_each_ok {S A} (P : S -> Prop) (body : S -> A -> result S)
    (l : list A) (s : S) :
  P s ->
  (forall s x, P s -> x ∈ l -> exists s', body s x = Ok s' /\ P s') ->
  exists s', for_each body s l = Ok s' /\ P s'.
Proof.
  revert s. induction l as [|x l IH]; intros s Hs Hbody; simpl; [by eexists|].
  destruct (Hbody s x Hs) as (s1 & -> & Hs1); [apply list_elem_of_here|].
  simpl. apply IH; [done|].
  intros s2 y Hs2 Hy. apply Hbody; [done|]. by apply list_elem_of_further.
Qed.

Section FeatureBinnerReturns.
Context `{!PyBuiltins, !Numpy}.

Lemma map_feature_ok (self : FeatureBinner.t) name value :
  FeatureBinner.coerces_or_value_error value ->
  exists d, FeatureBinner._map_feature self name value = Ok d.
Proof.
  unfold FeatureBinner.coerces_or_value_error, FeatureBinner._map_feature.
  destruct (py_float value) as [f|[]]; try done; intros _.
  - destruct (_ !! name); by eexists.
  - by eexists.
Qed.

Lemma collect_feature_ok (self : FeatureBinner.t) name value :
  FeatureBinner.coerces_or_value_error value ->
  FeatureBinner.default_mappers self ->
  exists self',
    FeatureBinner._collect_feature self name value = Ok self' /\
    FeatureBinner.default_mappers self'.
Proof.
  unfold FeatureBinner.coerces_or_value_error, FeatureBinner._collect_feature.
  destruct (py_float value) as [f|[]]; try done; intros _ Hdef;
    [|by exists self].
  eexists. split; [done|].
  intros k mapper. simpl. rewrite lookup_insert. case_decide as Hk; [|apply Hdef].
  intros [= <-]. simpl.
  destruct (FeatureBinner.features self !! name) as [m|] eqn:Em; simpl; [|done].
  by apply (Hdef name).
Qed.

(** [transform] returns on every dataset whose values coerce or fail with
    [ValueError]. *)
Lemma transform_returns (self : FeatureBinner.t) (X : dataset) :
  (forall (sent : sentence) (w : word) kv,
     sent ∈ X -> w ∈ sent -> kv ∈ w ->
     FeatureBinner.coerces_or_value_error kv.2) ->
  exists X', FeatureBinner.transform self X = Ok X'.
Proof.
  intros Hsafe. unfold FeatureBinner.transform.
  apply mapM_result_ok. intros s sent Hs.
  apply mapM_result_ok. intros i w Hi.
  unfold FeatureBinner.transform_word.
  destruct (for_each_ok (fun _ => True) (FeatureBinner.transform_item self) w [])
    as (w' & Hw' & _); [done| |by exists w'].
  intros acc kv _ Hkv. unfold FeatureBinner.transform_item.
  destruct (map_feature_ok self kv.1 kv.2) as [d Hd].
  { apply (Hsafe sent w); [|by eapply list_elem_of_lookup_2|done].
    by eapply list_elem_of_lookup_2. }
  rewrite Hd. simpl. destruct d; by eexists.
Qed.

(** [fit] returns on such a dataset when the mappers are the ones the
    binner creates itself. *)
Lemma fit_returns (self : FeatureBinner.t) (X : dataset) :
  FeatureBinner.default_mappers self ->
  (forall (sent : sentence) (w : word) kv,
     sent ∈ X -> w ∈ sent -> kv ∈ w ->
     FeatureBinner.coerces_or_value_error kv.2) ->
  exists fitted, FeatureBinner.fit self X = Ok fitted.
Proof.
  intros Hdef Hsafe. unfold FeatureBinner.fit.
  destruct (for_each_ok FeatureBinner.default_mappers
              (fun self (sentence : sentence) =>
                 for_each (fun self (word : word) =>
                   for_each (fun self kv =>
                     FeatureBinner._collect_feature self kv.1 kv.2) self word)
                   self sentence) X self) as (collected & Hc & Hcdef); [done| |].
  { intros s1 sent Hs1 Hsent. apply for_each_ok; [done|].
    intros s2 w Hs2 Hw. apply for_each_ok; [done|].
    intros s3 kv Hs3 Hkv. apply collect_feature_ok; [|done].
    by apply (Hsafe sent w). }
  unfold FeatureBinner.collect. rewrite Hc. simpl.
  unfold FeatureBinner.fit_mappers.
  match goal with
  | |- exists fitted, for_each ?body ?s ?l = Ok fitted =>
      destruct (for_each_ok (fun _ => True) body l s) as (fitted & Hf & _)
  end; [done| |by exists fitted].
  intros acc [k m] _ Hkm. apply elem_of_map_to_list in Hkm.
  destruct (Hcdef k m Hkm) as [Hn Hs].
  destruct (fit_default_ok m Hn Hs) as (m' & Hm' & _).
  simpl. rewrite Hm'. simpl. by eexists.
Qed.

End FeatureBinnerReturns.

(** ** CRFTagger.predict_proba *)

Lemma enumerate_lookup {A} (l : list A) (i : nat) (y : nat * A) :
  enumerate l !! i = Some y -> y.1 = i /\ l !! i = Some y.2.
Proof.
  unfold enumerate. rewrite list_lookup_imap.
  destruct (l !! i) as [x|]; simpl; [|done]. by intros [= <-].
Qed.

Lemma enumerate_lookup_Some {A} (l : list A) (i : nat) (x : A) :
  l !! i = Some x -> enumerate l !! i = Some (i, x).
Proof. intros H. unfold enumerate. by rewrite list_lookup_imap, H. Qed.

Lemma length_enumerate {A} (l : list A) : length (enumerate l) = length l.
Proof. apply length_imap. Qed.

Lemma marginal_at_mass marginals_dict q i tag p :
  CRFTagger.marginal_at marginals_dict q i tag = Ok p <->
  CRFTagger.marginal_mass marginals_dict q i tag p.
Proof.
  unfold CRFTagger.marginal_at, CRFTagger.marginal_mass. split.
  - destruct (marginals_dict !! q) as [qm|]; [|done].
    destruct (qm !! i) as [dist|] eqn:Ei; [|done].
    destruct (dist !! tag) as [p'|] eqn:Et; [|done].
    intros [= <-]. by exists qm, dist.
  - intros (qm & dist & -> & -> & ->). done.
Qed.

Section PredictProba.
Context `{!PyBuiltins, !Numpy, !CRFModel}.
Context {Example : Type} `{!SequenceFeatures Example}.

(** The loops stop with an exception only at a label the marginals lack. *)
Lemma marginal_tuples_returns (X : dataset) :
  (forall q query_seq i tag,
     clf_predict X !! q = Some query_seq ->
     query_seq !! i = Some tag ->
     exists p, CRFTagger.marginal_mass (clf_predict_marginals X) q i tag p) ->
  exists out, CRFTagger.marginal_tuples X = Ok out.
Proof.
  intros Hcover. unfold CRFTagger.marginal_tuples.
  apply mapM_result_ok. intros q y Hy.
  destruct (enumerate_lookup _ _ _ Hy) as [Hq Hseq].
  apply mapM_result_ok. intros i it Hit.
  destruct (enumerate_lookup _ _ _ Hit) as [Hi Htag].
  rewrite Hq, Hi.
  destruct (Hcover q y.2 i it.2 Hseq Htag) as [p Hp].
  apply marginal_at_mass in Hp. rewrite Hp. by eexists.
Qed.

Lemma marginal_tuples_sound (X : dataset) out :
  CRFTagger.marginal_tuples X = Ok out ->
  length out = length (clf_predict X) /\
  forall q query_seq,
    clf_predict X !! q = Some query_seq ->
    exists row,
      out !! q = Some row /\
      length row = length query_seq /\
      forall i tag,
        query_seq !! i = Some tag ->
        exists p,
          row !! i = Some (tag, p) /\
          CRFTagger.marginal_mass (clf_predict_marginals X) q i tag p.
Proof.
  unfold CRFTagger.marginal_tuples. intros Hout.
  split; [by rewrite (mapM_result_length _ _ _ Hout), length_enumerate|].
  intros q query_seq Hseq.
  destruct (mapM_result_lookup _ _ _ _ _ Hout (enumerate_lookup_Some _ _ _ Hseq))
    as (row & Hrow & Hinner).
  cbn [fst snd] in Hinner.
  exists row. split; [done|].
  split; [by rewrite (mapM_result_length _ _ _ Hinner), length_enumerate|].
  intros i tag Htag.
  destruct (mapM_result_lookup _ _ _ _ _ Hinner (enumerate_lookup_Some _ _ _ Htag))
    as (y & Hy & Hpair).
  cbn [fst snd] in Hpair.
  destruct (CRFTagger.marginal_at _ q i tag) as [p|] eqn:Hp; [|done].
  injection Hpair as <-. exists p. split; [done|]. by apply marginal_at_mass.
Qed.

(** C6: let [X] be the features of the examples.  Whenever [predict_proba]
    returns, it returns one row per query and one pair per token, made of
    the label that [predict] returns at that position and of the mass that
    the marginal distribution of that token gives to this very label; and
    it does return when the marginals cover the labels [predict] returns. *)
Theorem C6_predict_proba_mass_of_predicted_label (self self' : CRFTagger.t)
    (examples : list Example) (X : dataset) :
  CRFTagger.extract_features self examples false = Ok (self', X) ->
  (forall out,
     CRFTagger.predict_proba self examples = Ok out ->
     length out = length (CRFTagger.predict self X) /\
     forall q query_seq,
       CRFTagger.predict self X !! q = Some query_seq ->
       exists row,
         out !! q = Some row /\
         length row = length query_seq /\
         forall i tag,
           query_seq !! i = Some tag ->
           exists p,
             row !! i = Some (tag, p) /\
             CRFTagger.marginal_mass (clf_predict_marginals X) q i tag p) /\
  ((forall q query_seq i tag,
      CRFTagger.predict self X !! q = Some query_seq ->
      query_seq !! i = Some tag ->
      exists p, CRFTagger.marginal_mass (clf_predict_marginals X) q i tag p) ->
   exists out, CRFTagger.predict_proba self examples = Ok out).
Proof.
  intros HX. unfold CRFTagger.predict_proba, CRFTagger.predict. rewrite HX.
  cbn [mbind result_bind snd]. split.
  - intros out. apply marginal_tuples_sound.
  - apply marginal_tuples_returns.
Qed.

End PredictProba.

Lemma C6_predict_proba_mass_of_predicted_label_witness :
  let self := {| CRFTagger._feat_binner := sample_binner |} in
  let X := [[ [("len", PyInt 4); ("x", PyFloat (Float64.of_Z 5))] ]] in
  @CRFTagger.extract_features decimal_builtins numpy64 sentence
    identity_features self sample_test false = Ok (self, X) /\
  (forall q query_seq i tag,
     @CRFTagger.predict toy_model self X !! q = Some query_seq ->
     query_seq !! i = Some tag ->
     exists p,
       CRFTagger.marginal_mass (@clf_predict_marginals toy_model X) q i tag p) /\
  exists out,
    @CRFTagger.predict_proba decimal_builtins numpy64 toy_model sentence
      identity_features self sample_test = Ok out /\
    length out = 1%nat.
Proof.
  intros self X.
  assert (forall q query_seq i tag,
     @CRFTagger.predict toy_model self X !! q = Some query_seq ->
     query_seq !! i = Some tag ->
     exists p,
       CRFTagger.marginal_mass (@clf_predict_marginals toy_model X) q i tag p)
    as Hcover.
  { intros q query_seq i tag Hq Hi.
    destruct q as [|q]; [|discriminate]. injection Hq as <-.
    destruct i as [|i]; [|discriminate]. injection Hi as <-.
    exists (Float64.div (Float64.of_Z 1) (Float64.of_Z 4)).
    exists [toy_distribution], toy_distribution.
    split; [reflexivity|]. split; [reflexivity|]. vm_compute. reflexivity. }
  split; [vm_compute; reflexivity|]. split; [exact Hcover|].
  destruct (@C6_predict_proba_mass_of_predicted_label decimal_builtins numpy64
              toy_model sentence identity_features self self sample_test X)
    as [Hsound Hreturns]; [vm_compute; reflexivity|].
  destruct (Hreturns Hcover) as [out Hout].
  exists out. split; [exact Hout | exact (proj1 (Hsound out Hout))].
Defined.

(** The confidence is the mass of the predicted label, here a quarter,
    and not the largest mass of the distribution, three quarters. *)
Example predict_proba_not_the_maximum :
  @CRFTagger.predict_proba decimal_builtins numpy64 toy_model sentence
    identity_features {| CRFTagger._feat_binner := sample_binner |} sample_test
  = Ok [[("O", Float64.div (Float64.of_Z 1) (Float64.of_Z 4))]].
Proof. vm_compute. reflexivity. Qed.

(** ** Classifier.load *)

Section ClassifierLoad.
Context {File Model : Type} `{!PyBuiltins, !Joblib File Model}.

(** C8: at a path with no file, [load] raises [ClassifierLoadError] with
    the message built from the class name and the [repr] of the path, not
    the [FileNotFoundError] of [joblib.load], and the classifier, with its
    [_model], is as before. *)
Theorem C8_load_missing_file_raises_load_error (self : Classifier.t)
    (fs : gmap string File) (model_path : string) :
  fs !! model_path = None ->
  Classifier.load self fs model_path
    = (self,
       Raise (ClassifierLoadError
                ("Unable to load " +:+ Classifier.class_name self
                   +:+ ". Pickle file not found at " +:+ repr_str model_path))) /\
  (Classifier.load self fs model_path).2 <> Raise FileNotFoundError /\
  Classifier._model (Classifier.load self fs model_path).1
    = Classifier._model self.
Proof.
  intros Hmissing.
  assert (Classifier.load self fs model_path
          = (self, Raise (ClassifierLoadError
                (Classifier.load_error_msg (Classifier.class_name self) model_path))))
    as Hload.
  { unfold Classifier.load, joblib_load. by rewrite Hmissing. }
  rewrite Hload. split; [done|]. split; done.
Qed.

End ClassifierLoad.

Lemma C8_load_missing_file_raises_load_error_witness :
  let self := {| Classifier.class_name := "DomainClassifier";
                 Classifier._model := (None : option unit) |} in
  (∅ : gmap string unit) !! "models/domain.pkl" = None /\
  @Classifier.load unit unit decimal_builtins plain_joblib self ∅
    "models/domain.pkl"
    = (self,
       Raise (ClassifierLoadError
         "Unable to load DomainClassifier. Pickle file not found at 'models/domain.pkl'")).
Proof.
  intros self. split; [reflexivity|].
  apply (@C8_load_missing_file_raises_load_error unit unit decimal_builtins
           plain_joblib self ∅ "models/domain.pkl").
  reflexivity.
Defined.

(** * Further properties of the code *)

(** ** FeatureMapper.map_bucket *)

Lemma binsearch_left_all_less fuel arr v lo hi :
  (forall i a, arr !! i = Some a -> np_less a v = true) ->
  (hi - lo <= fuel)%nat -> (lo <= hi <= length arr)%nat ->
  binsearch_left fuel arr v lo hi = hi.
Proof.
  intros Hall. revert lo hi.
  induction fuel as [|fuel IH]; intros lo hi Hfuel Hle; cbn [binsearch_left];
    [lia|].
  destruct (Nat.ltb_spec lo hi) as [Hlt|]; [|lia].
  pose proof (half_lt lo hi Hlt) as Hhalf.
  destruct (arr !! _) as [mid_val|] eqn:Hmid.
  - rewrite (Hall _ _ Hmid). apply IH; lia.
  - apply lookup_ge_None in Hmid. lia.
Qed.

Lemma binsearch_left_none_less fuel arr v lo hi :
  (forall i a, arr !! i = Some a -> np_less a v = false) ->
  binsearch_left fuel arr v lo hi = lo.
Proof.
  intros Hnone. revert hi.
  induction fuel as [|fuel IH]; intros hi; cbn [binsearch_left]; [done|].
  destruct (lo <? hi)%nat; [|done].
  destruct (arr !! _) as [mid_val|] eqn:Hmid; [|done].
  rewrite (Hnone _ _ Hmid). apply IH.
Qed.

(** X1: [map_bucket] is at most the number of boundaries; a value that
    every boundary is below gets the last bucket, the number of
    boundaries, and a value that no boundary is below gets bucket 0,
    whatever the order of the boundaries. *)
Theorem X1_map_bucket_extremes (self : FeatureMapper.t) (value : float) :
  (FeatureMapper.map_bucket self value
     <= length (FeatureMapper._std_bins self))%nat /\
  (Forall (fun b => np_less b value = true) (FeatureMapper._std_bins self) ->
   FeatureMapper.map_bucket self value = length (FeatureMapper._std_bins self)) /\
  (Forall (fun b => np_less b value = false) (FeatureMapper._std_bins self) ->
   FeatureMapper.map_bucket self value = 0%nat).
Proof.
  unfold FeatureMapper.map_bucket, np_searchsorted.
  split; [apply binsearch_left_range; lia|]. split; intros Hall.
  - apply binsearch_left_all_less; [|lia|lia].
    intros i a Ha. rewrite Forall_forall in Hall. apply Hall.
    by eapply list_elem_of_lookup_2.
  - apply binsearch_left_none_less.
    intros i a Ha. rewrite Forall_forall in Hall. apply Hall.
    by eapply list_elem_of_lookup_2.
Qed.

Lemma X1_map_bucket_extremes_witness :
  Forall (fun b => np_less b (Float64.of_Z 100) = true)
    (FeatureMapper._std_bins len_fitted) /\
  FeatureMapper.map_bucket len_fitted (Float64.of_Z 100)
    = length (FeatureMapper._std_bins len_fitted) /\
  Forall (fun b => np_less b (Float64.of_Z (-100)) = false)
    (FeatureMapper._std_bins len_fitted) /\
  FeatureMapper.map_bucket len_fitted (Float64.of_Z (-100)) = 0%nat.
Proof.
  assert (FeatureMapper._std_bins len_fitted
          = Float64.of_Z <$> [-1; 0; 1; 2; 3; 4; 5; 6; 7]) as Hbins
    by (vm_compute; reflexivity).
  assert (Forall (fun b => np_less b (Float64.of_Z 100) = true)
            (FeatureMapper._std_bins len_fitted)) as Hhi.
  { rewrite Hbins. repeat (constructor; [vm_compute; reflexivity|]).
    constructor. }
  assert (Forall (fun b => np_less b (Float64.of_Z (-100)) = false)
            (FeatureMapper._std_bins len_fitted)) as Hlo.
  { rewrite Hbins. repeat (constructor; [vm_compute; reflexivity|]).
    constructor. }
  split; [exact Hhi|]. split.
  - exact (proj1 (proj2 (X1_map_bucket_extremes len_fitted (Float64.of_Z 100))) Hhi).
  - split; [exact Hlo|].
    exact (proj2 (proj2 (X1_map_bucket_extremes len_fitted (Float64.of_Z (-100)))) Hlo).
Defined.

(** The order of numpy is transitive on the side of "not after". *)
Lemma np_not_less_trans (a b c : float) :
  np_less b a = false -> np_less c b = false -> np_less c a = false.
Proof.
  unfold np_less, Float64.ltb, Float64.is_nan, SFltb, SFcompare.
  float_order_cases a b c.
Qed.

Lemma np_less_irrefl (a : float) : np_less a a = false.
Proof.
  unfold np_less, Float64.ltb, Float64.is_nan, SFltb, SFcompare.
  destruct a as [[]|[]| |[] m e]; try done; fold_pos_compare;
    rewrite Z.compare_refl, Pos.compare_refl; done.
Qed.

Lemma ascendingb_sound (arr : list float) :
  ascendingb arr = true -> ascending arr.
Proof.
  induction arr as [|a arr IH]; intros Hb i j x y Hij Hi Hj; [done|].
  assert (ascending arr) as Hrest.
  { apply IH. destruct arr; [done|]. simpl in Hb.
    by apply andb_true_iff in Hb as [_ ?]. }
  assert (forall k z, arr !! k = Some z -> np_less z a = false) as Hhead.
  { destruct arr as [|b arr]; [done|]. simpl in Hb.
    apply andb_true_iff in Hb as [Hab _]. apply negb_true_iff in Hab.
    intros k z Hz. apply (np_not_less_trans a b z); [done|].
    apply (Hrest 0%nat k); [lia|done|done]. }
  destruct i as [|i], j as [|j]; simpl in *; try lia.
  - injection Hi as <-. injection Hj as <-. apply np_less_irrefl.
  - injection Hi as <-. by eapply Hhead.
  - apply (Hrest i j); [lia|done|done].
Qed.

(** X2: when the boundaries are in ascending order, [map_bucket] is the
    number of boundaries strictly below the value. *)
Theorem X2_map_bucket_counts_boundaries_below (self : FeatureMapper.t)
    (value : float) :
  ascending (FeatureMapper._std_bins self) ->
  FeatureMapper.map_bucket self value
    = count_below (FeatureMapper._std_bins self) value.
Proof. intros Hasc. by apply np_searchsorted_ascending. Qed.

Lemma X2_map_bucket_counts_boundaries_below_witness :
  ascending (FeatureMapper._std_bins len_fitted) /\
  FeatureMapper.map_bucket len_fitted (Float64.of_Z 3)
    = count_below (FeatureMapper._std_bins len_fitted) (Float64.of_Z 3).
Proof.
  assert (ascending (FeatureMapper._std_bins len_fitted)) as Hasc
    by (apply ascendingb_sound; vm_compute; reflexivity).
  split; [exact Hasc|].
  exact (X2_map_bucket_counts_boundaries_below len_fitted (Float64.of_Z 3) Hasc).
Defined.

(** ** FeatureMapper.fit *)

Section FeatureMapperFit.
Context `{!Numpy}.

Lemma fit_loop_length_cases n sd sz r :
  length (FeatureMapper.fit_loop n sd sz r)
    = if Float64.gtb sd ZERO then n else 0%nat.
Proof.
  destruct (Float64.gtb sd ZERO) eqn:E.
  - by apply fit_loop_length.
  - by rewrite fit_loop_stop.
Qed.

(** X3: whenever [num_bin] can be computed, [fit] returns; the boundaries
    start with [mean - std * num_std] and there are [num_bin + 1] of them
    when [num_bin] is positive and the deviation exceeds [ZERO], and one
    otherwise: a count that is zero or negative, a deviation at or below
    [ZERO] or a NaN deviation all leave the single first boundary. *)
Theorem X3_fit_number_of_boundaries (self : FeatureMapper.t) (num_bin : Z) :
  FeatureMapper.num_bin_of self = Ok num_bin ->
  exists fitted,
    FeatureMapper.fit self = Ok fitted /\
    FeatureMapper._std_bins fitted !! 0%nat
      = Some (Float64.sub (np_mean (FeatureMapper.values self))
                (Float64.mul (np_std (FeatureMapper.values self))
                   (FeatureMapper._num_std self))) /\
    Z.of_nat (length (FeatureMapper._std_bins fitted))
      = if Float64.gtb (np_std (FeatureMapper.values self)) ZERO
           && (0 <? num_bin)
        then num_bin + 1 else 1.
Proof.
  intros Hnb. unfold FeatureMapper.fit. rewrite Hnb. cbn [mbind result_bind].
  eexists. split; [reflexivity|]. cbn [FeatureMapper._std_bins].
  split; [done|]. cbn [length]. rewrite fit_loop_length_cases.
  destruct (Float64.gtb _ ZERO); simpl; [|done].
  destruct (Z.ltb_spec 0 num_bin); lia.
Qed.

(** The three ways [num_bin] fails to be computed. *)
Lemma num_bin_of_cases (self : FeatureMapper.t) :
  let ratio :=
    Float64.div (FeatureMapper._num_std self) (FeatureMapper._size_std self) in
  FeatureMapper.num_bin_of self =
    if Float64.is_zero (FeatureMapper._size_std self)
    then Raise ZeroDivisionError
    else match ratio with
         | S754_nan => Raise ValueError
         | S754_infinity _ => Raise OverflowError
         | _ => Ok (2 * default 0 (Float64.trunc ratio))
         end.
Proof.
  unfold FeatureMapper.num_bin_of, py_truediv.
  destruct (Float64.is_zero _); [done|]. cbn [mbind result_bind].
  by destruct (Float64.div _ _).
Qed.

(** X4: the exceptions of [fit].  It raises [ZeroDivisionError] exactly
    when [size_std] is zero, [ValueError] exactly when [size_std] is not
    zero and the ratio [num_std / size_std] is NaN, [OverflowError]
    exactly when [size_std] is not zero and the ratio is infinite, and
    nothing else. *)
Theorem X4_fit_exceptions (self : FeatureMapper.t) (e : exn) :
  let size_zero := Float64.is_zero (FeatureMapper._size_std self) in
  let ratio :=
    Float64.div (FeatureMapper._num_std self) (FeatureMapper._size_std self) in
  FeatureMapper.fit self = Raise e <->
  (e = ZeroDivisionError /\ size_zero = true) \/
  (e = ValueError /\ size_zero = false /\ ratio = S754_nan) \/
  (e = OverflowError /\ size_zero = false /\ exists s, ratio = S754_infinity s).
Proof.
  intros size_zero ratio. unfold FeatureMapper.fit.
  rewrite num_bin_of_cases. fold size_zero ratio.
  destruct size_zero; cbn [mbind result_bind].
  - split; [intros [= <-]; by left|].
    intros [[-> _]|[(_ & ? & _)|(_ & ? & _)]]; done.
  - destruct ratio as [s|s| |s m ex]; cbn [mbind result_bind]; split;
      try done;
      try (intros [[_ ?]|[(_ & _ & ?)|(_ & _ & ? & ?)]]; done).
    + intros [= <-]. right. right. eauto.
    + intros [[_ ?]|[(_ & _ & ?)|(-> & _ & _)]]; done.
    + intros [= <-]. right. by left.
    + intros [[_ ?]|[(-> & _ & _)|(_ & _ & ? & ?)]]; done.
Qed.

(** X5: fitting again without new values changes nothing: [fit] on a fitted
    mapper returns that very mapper. *)
Theorem X5_fit_again_is_identity (self fitted : FeatureMapper.t) :
  FeatureMapper.fit self = Ok fitted ->
  FeatureMapper.fit fitted = Ok fitted.
Proof.
  unfold FeatureMapper.fit, FeatureMapper.num_bin_of.
  destruct (py_truediv _ _) as [q|] eqn:Eq; cbn [mbind result_bind]; [|done].
  destruct (py_int q) as [n|] eqn:En; cbn [mbind result_bind]; [|done].
  intros [= <-]. cbn [FeatureMapper._num_std FeatureMapper._size_std
                      FeatureMapper.values FeatureMapper.feat_name].
  rewrite Eq. cbn [mbind result_bind]. rewrite En. done.
Qed.

End FeatureMapperFit.

Lemma X3_fit_number_of_boundaries_witness :
  FeatureMapper.num_bin_of len_mapper = Ok 8 /\
  exists fitted,
    @FeatureMapper.fit numpy64 len_mapper = Ok fitted /\
    Z.of_nat (length (FeatureMapper._std_bins fitted)) = 9.
Proof.
  split; [vm_compute; reflexivity|].
  destruct (@X3_fit_number_of_boundaries numpy64 len_mapper 8)
    as (fitted & Hfit & _ & Hlen); [vm_compute; reflexivity|].
  exists fitted. split; [exact Hfit|].
  rewrite Hlen. vm_compute. reflexivity.
Defined.

Lemma X5_fit_again_is_identity_witness :
  @FeatureMapper.fit numpy64 len_mapper = Ok len_fitted /\
  @FeatureMapper.fit numpy64 len_fitted = Ok len_fitted.
Proof.
  assert (@FeatureMapper.fit numpy64 len_mapper = Ok len_fitted) as Hfit
    by (vm_compute; reflexivity).
  split; [exact Hfit|].
  exact (@X5_fit_again_is_identity numpy64 len_mapper len_fitted Hfit).
Defined.

(** ** FeatureBinner.transform *)

Lemma dict_set_fresh {V} (d : pydict V) k v :
  k ∉ dict_keys d -> dict_set d k v = d ++ [(k, v)].
Proof.
  induction d as [|[k' v'] d IH]; intros Hk; simpl; [done|].
  unfold dict_keys in Hk. rewrite fmap_cons in Hk.
  apply not_elem_of_cons in Hk as [Hne Hk]. simpl in Hne.
  apply String.eqb_neq in Hne. rewrite Hne. f_equal. by apply IH.
Qed.

Lemma mapM_result_raise {A B} (f : A -> result B) (l : list A) (e : exn) :
  mapM f l = Raise e -> exists x, x ∈ l /\ f x = Raise e.
Proof.
  induction l as [|a l IH]; simpl; [done|].
  destruct (f a) as [b|e'] eqn:Ea; simpl.
  - destruct (mapM f l) as [k|e'] eqn:Ek; simpl; [done|].
    intros [= <-]. destruct (IH eq_refl) as (x & Hx & Hfx).
    exists x. split; [by apply list_elem_of_further|done].
  - intros [= <-]. exists a. split; [apply list_elem_of_here|done].
Qed.

Lemma for_each_raise {S A} (body : S -> A -> result S) (l : list A) (s : S)
    (e : exn) :
  for_each body s l = Raise e ->
  exists s0 x, x ∈ l /\ body s0 x = Raise e.
Proof.
  revert s. induction l as [|a l IH]; intros s; simpl; [done|].
  destruct (body s a) as [s1|e'] eqn:Ea; simpl.
  - intros Hrest. destruct (IH _ Hrest) as (s0 & x & Hx & Hb).
    exists s0, x. split; [by apply list_elem_of_further|done].
  - intros [= <-]. exists s, a. split; [apply list_elem_of_here|done].
Qed.

Section FeatureBinnerTransform.
Context `{!PyBuiltins}.

Lemma map_feature_non_numeric (self : FeatureBinner.t) name value :
  py_float value = Raise ValueError ->
  FeatureBinner._map_feature self name value = Ok [(name, value)].
Proof. intros Hf. unfold FeatureBinner._map_feature. by rewrite Hf. Qed.

Lemma map_feature_mapped (self : FeatureBinner.t) name value f mapper :
  py_float value = Ok f ->
  FeatureBinner.features self !! name = Some mapper ->
  FeatureBinner._map_feature self name value
    = Ok [(name, PyInt (Z.of_nat (FeatureMapper.map_bucket mapper f)))].
Proof. intros Hf Hm. unfold FeatureBinner._map_feature. by rewrite Hf, Hm. Qed.

Lemma map_feature_raise (self : FeatureBinner.t) name value e :
  FeatureBinner._map_feature self name value = Raise e ->
  py_float value = Raise e /\ e <> ValueError.
Proof.
  unfold FeatureBinner._map_feature.
  destruct (py_float value) as [f|[]]; try done;
    try (by intros [= <-]).
  by destruct (_ !! name).
Qed.

(** The value found under a key of the transformed dataset is the one
    [_map_feature] computes for the pair at the same place. *)
Lemma transform_get (self : FeatureBinner.t) (X X' : dataset) s i sent w
    name value v' :
  FeatureBinner.transform self X = Ok X' ->
  X !! s = Some sent -> sent !! i = Some w ->
  NoDup (dict_keys w) -> (name, value) ∈ w ->
  FeatureBinner._map_feature self name value = Ok [(name, v')] ->
  exists sent' w',
    X' !! s = Some sent' /\ sent' !! i = Some w' /\
    dict_get w' name = Some v'.
Proof.
  intros HX Hs Hi Hnd Hin Hmap.
  destruct (transform_lookup _ _ _ _ _ _ _ HX Hs Hi) as (sent' & w' & ? & ? & Hw).
  exists sent', w'. split; [done|]. split; [done|].
  by apply (transform_items_get self w [] w' name value).
Qed.

Lemma transform_items_keys (self : FeatureBinner.t) (w : word) acc w' :
  for_each (FeatureBinner.transform_item self) acc w = Ok w' ->
  NoDup (dict_keys acc ++ dict_keys w) ->
  dict_keys w' = dict_keys acc ++ dict_keys w.
Proof.
  unfold dict_keys. revert acc.
  induction w as [|kv w IH]; intros acc; cbn [for_each].
  - intros [= <-] _. by rewrite app_nil_r.
  - destruct (FeatureBinner.transform_item _ _ _) as [acc1|] eqn:E;
      cbn [mbind result_bind]; [|done].
    destruct (transform_item_set _ _ _ _ E) as (v' & _ & ->).
    intros Hrest Hnd. rewrite fmap_cons in *.
    assert (kv.1 ∉ acc.*1) as Hfresh.
    { apply NoDup_app in Hnd as (_ & Hdis & _). intros Hin.
      apply (Hdis _ Hin). apply list_elem_of_here. }
    rewrite (dict_set_fresh acc kv.1 v' Hfresh) in Hrest.
    assert ((acc ++ [(kv.1, v')]).*1 ++ w.*1 = acc.*1 ++ kv.1 :: w.*1) as Heq.
    { rewrite fmap_app. cbn [fmap list_fmap]. by rewrite <- app_assoc. }
    rewrite (IH _ Hrest); [done|]. by rewrite Heq.
Qed.

(** X6: [transform] keeps the shape of the dataset: as many sentences, and
    in each sentence as many tokens, in the same order. *)
Theorem X6_transform_keeps_shape (self : FeatureBinner.t) (X X' : dataset) :
  FeatureBinner.transform self X = Ok X' ->
  length X' = length X /\
  forall s sent,
    X !! s = Some sent ->
    exists sent', X' !! s = Some sent' /\ length sent' = length sent.
Proof.
  unfold FeatureBinner.transform. intros HX.
  split; [by apply mapM_result_length in HX|].
  intros s sent Hs.
  destruct (mapM_result_lookup _ _ _ _ _ HX Hs) as (sent' & Hs' & Hsent).
  exists sent'. split; [done|]. by apply mapM_result_length in Hsent.
Qed.

(** X7: a transformed token has the keys of the token it comes from, in
    the same order: [transform] neither drops nor adds a feature name. *)
Theorem X7_transform_keeps_keys (self : FeatureBinner.t) (X X' : dataset)
    (s i : nat) (sent : sentence) (w : word) :
  FeatureBinner.transform self X = Ok X' ->
  X !! s = Some sent -> sent !! i = Some w ->
  NoDup (dict_keys w) ->
  exists sent' w',
    X' !! s = Some sent' /\ sent' !! i = Some w' /\
    dict_keys w' = dict_keys w.
Proof.
  intros HX Hs Hi Hnd.
  destruct (transform_lookup _ _ _ _ _ _ _ HX Hs Hi) as (sent' & w' & ? & ? & Hw).
  exists sent', w'. split; [done|]. split; [done|].
  by apply (transform_items_keys self w [] w').
Qed.

(** X8: a value on which [float] raises [ValueError] is found unchanged
    under its name in the transformed token. *)
Theorem X8_transform_passes_non_numeric (self : FeatureBinner.t)
    (X X' : dataset) (s i : nat) (sent : sentence) (w : word)
    (name : string) (value : pyval) :
  FeatureBinner.transform self X = Ok X' ->
  X !! s = Some sent -> sent !! i = Some w ->
  NoDup (dict_keys w) -> (name, value) ∈ w ->
  py_float value = Raise ValueError ->
  exists sent' w',
    X' !! s = Some sent' /\ sent' !! i = Some w' /\
    dict_get w' name = Some value.
Proof.
  intros HX Hs Hi Hnd Hin Hf.
  apply (transform_get self X X' s i sent w name value value); auto.
  by apply map_feature_non_numeric.
Qed.

(** X9: a value that coerces to the float [f], under a name that has a
    mapper, is replaced by the integer [map_bucket f] of that mapper,
    which lies between 0 and the number of boundaries of the mapper. *)
Theorem X9_transform_bins_numeric (self : FeatureBinner.t)
    (X X' : dataset) (s i : nat) (sent : sentence) (w : word)
    (name : string) (value : pyval) (f : float) (mapper : FeatureMapper.t) :
  FeatureBinner.transform self X = Ok X' ->
  X !! s = Some sent -> sent !! i = Some w ->
  NoDup (dict_keys w) -> (name, value) ∈ w ->
  py_float value = Ok f ->
  FeatureBinner.features self !! name = Some mapper ->
  exists sent' w' bucket,
    X' !! s = Some sent' /\ sent' !! i = Some w' /\
    dict_get w' name = Some (PyInt bucket) /\
    bucket = Z.of_nat (FeatureMapper.map_bucket mapper f) /\
    0 <= bucket <= Z.of_nat (length (FeatureMapper._std_bins mapper)).
Proof.
  intros HX Hs Hi Hnd Hin Hf Hm.
  destruct (transform_get self X X' s i sent w name value
              (PyInt (Z.of_nat (FeatureMapper.map_bucket mapper f))))
    as (sent' & w' & ? & ? & ?); auto.
  { by apply map_feature_mapped. }
  exists sent', w', (Z.of_nat (FeatureMapper.map_bucket mapper f)).
  repeat split; try done; [lia|].
  pose proof (np_searchsorted_le_length (FeatureMapper._std_bins mapper) f).
  unfold FeatureMapper.map_bucket. lia.
Qed.

(** X10: [transform] never raises [ValueError]: an exception it raises is
    the exception, of another kind, that [float] raises on a value of the
    dataset. *)
Theorem X10_transform_raises_what_float_raises (self : FeatureBinner.t)
    (X : dataset) (e : exn) :
  FeatureBinner.transform self X = Raise e ->
  e <> ValueError /\
  exists (sent : sentence) (w : word) (kv : string * pyval),
    sent ∈ X /\ w ∈ sent /\ kv ∈ w /\ py_float kv.2 = Raise e.
Proof.
  unfold FeatureBinner.transform. intros HX.
  destruct (mapM_result_raise _ _ _ HX) as (sent & Hsent & Hs).
  destruct (mapM_result_raise _ _ _ Hs) as (w & Hw & Hword).
  unfold FeatureBinner.transform_word in Hword.
  destruct (for_each_raise _ _ _ _ Hword) as (acc & kv & Hkv & Hitem).
  unfold FeatureBinner.transform_item in Hitem.
  destruct (FeatureBinner._map_feature self kv.1 kv.2) as [d|e'] eqn:Hmap;
    simpl in Hitem; [by destruct d|].
  injection Hitem as ->.
  destruct (map_feature_raise _ _ _ _ Hmap) as [Hf Hne].
  split; [done|]. by exists sent, w, kv.
Qed.

End FeatureBinnerTransform.


Lemma X6_transform_keeps_shape_witness :
  @FeatureBinner.transform decimal_builtins sample_binner sample_train
    = Ok sample_train_binned /\
  length sample_train_binned = length sample_train.
Proof.
  split; [vm_compute; reflexivity|].
  apply (@X6_transform_keeps_shape decimal_builtins sample_binner).
  vm_compute. reflexivity.
Defined.

Lemma X7_transform_keeps_keys_witness :
  exists sent' w',
    sample_train_binned !! 0%nat = Some sent' /\ sent' !! 0%nat = Some w' /\
    dict_keys w' = ["len"; "pos"].
Proof.
  apply (@X7_transform_keeps_keys decimal_builtins sample_binner sample_train
           sample_train_binned 0%nat 0%nat
           [ [("len", PyInt 1); ("pos", PyStr "NN")] ]
           [("len", PyInt 1); ("pos", PyStr "NN")]);
    [vm_compute; reflexivity | reflexivity | reflexivity |].
  apply NoDup_cons. split; [|apply NoDup_singleton].
  intros H. apply list_elem_of_singleton in H. discriminate.
Defined.

Lemma X8_transform_passes_non_numeric_witness :
  @py_float decimal_builtins (PyStr "NN") = Raise ValueError /\
  exists sent' w',
    sample_train_binned !! 0%nat = Some sent' /\ sent' !! 0%nat = Some w' /\
    dict_get w' "pos" = Some (PyStr "NN").
Proof.
  split; [vm_compute; reflexivity|].
  apply (@X8_transform_passes_non_numeric decimal_builtins sample_binner
           sample_train sample_train_binned 0%nat 0%nat
           [ [("len", PyInt 1); ("pos", PyStr "NN")] ]
           [("len", PyInt 1); ("pos", PyStr "NN")] "pos" (PyStr "NN"));
    [vm_compute; reflexivity | reflexivity | reflexivity | |
    | vm_compute; reflexivity].
  - apply NoDup_cons. split; [|apply NoDup_singleton].
    intros H. apply list_elem_of_singleton in H. discriminate.
  - apply list_elem_of_further, list_elem_of_here.
Defined.

Lemma X9_transform_bins_numeric_witness :
  @py_float decimal_builtins (PyInt 1) = Ok (Float64.of_Z 1) /\
  FeatureBinner.features sample_binner !! "len" = Some len_fitted_named /\
  exists sent' w' bucket,
    sample_train_binned !! 0%nat = Some sent' /\ sent' !! 0%nat = Some w' /\
    dict_get w' "len" = Some (PyInt bucket) /\
    bucket = Z.of_nat (FeatureMapper.map_bucket len_fitted_named (Float64.of_Z 1)) /\
    0 <= bucket <= Z.of_nat (length (FeatureMapper._std_bins len_fitted_named)).
Proof.
  split; [vm_compute; reflexivity|]. split; [vm_compute; reflexivity|].
  apply (@X9_transform_bins_numeric decimal_builtins sample_binner
           sample_train sample_train_binned 0%nat 0%nat
           [ [("len", PyInt 1); ("pos", PyStr "NN")] ]
           [("len", PyInt 1); ("pos", PyStr "NN")] "len" (PyInt 1));
    [vm_compute; reflexivity | reflexivity | reflexivity | |
    | vm_compute; reflexivity | vm_compute; reflexivity].
  - apply NoDup_cons. split; [|apply NoDup_singleton].
    intros H. apply list_elem_of_singleton in H. discriminate.
  - apply list_elem_of_here.
Defined.

Lemma X10_transform_raises_what_float_raises_witness :
  @FeatureBinner.transform decimal_builtins sample_binner
    [[ [("f", PyNone)] ]] = Raise TypeError /\
  TypeError <> ValueError.
Proof.
  split; [reflexivity|].
  apply (@X10_transform_raises_what_float_raises decimal_builtins sample_binner
           [[ [("f", PyNone)] ]] TypeError).
  reflexivity.
Defined.

(** ** FeatureBinner.fit *)

Lemma for_each_accumulates {S A B} (g : S -> list B) (h : A -> list B)
    (body : S -> A -> result S) (l : list A) (s s' : S) :
  (forall s x s', body s x = Ok s' -> g s' = g s ++ h x) ->
  for_each body s l = Ok s' ->
  g s' = g s ++ flat_map h l.
Proof.
  intros Hstep. revert s.
  induction l as [|x l IH]; intros s; cbn [for_each flat_map].
  - intros [= <-]. by rewrite app_nil_r.
  - destruct (body s x) as [s1|] eqn:E; cbn [mbind result_bind]; [|done].
    intros Hrest. rewrite (IH _ Hrest), (Hstep _ _ _ E). by rewrite <- app_assoc.
Qed.

Section FeatureBinnerFitMore.
Context `{!PyBuiltins, !Numpy}.

Lemma collect_feature_values (self self' : FeatureBinner.t) k v name :
  FeatureBinner._collect_feature self k v = Ok self' ->
  FeatureBinner.collected_values self' name
    = FeatureBinner.collected_values self name
      ++ (if String.eqb k name
          then match py_float v with Ok f => [f] | Raise _ => [] end
          else []).
Proof.
  unfold FeatureBinner._collect_feature, FeatureBinner.collected_values.
  destruct (py_float v) as [f|[]]; try done; intros [= <-].
  - cbn [FeatureBinner.features]. rewrite lookup_insert.
    destruct (String.eqb_spec k name) as [->|Hne].
    + rewrite decide_True by done. cbn [FeatureMapper.values
        FeatureMapper.add_value FeatureMapper.set_feat_name].
      by destruct (_ !! name).
    + rewrite decide_False by done. by rewrite app_nil_r.
  - destruct (String.eqb k name); by rewrite app_nil_r.
Qed.

Lemma collect_values (self self' : FeatureBinner.t) (X : dataset) name :
  FeatureBinner.collect self X = Ok self' ->
  FeatureBinner.collected_values self' name
    = FeatureBinner.collected_values self name
      ++ FeatureBinner.coerced_in_dataset name X.
Proof.
  unfold FeatureBinner.collect, FeatureBinner.coerced_in_dataset.
  apply (for_each_accumulates
           (fun self => FeatureBinner.collected_values self name)).
  intros s1 sent s1'.
  apply (for_each_accumulates
           (fun self => FeatureBinner.collected_values self name)).
  intros s2 w s2'. unfold FeatureBinner.coerced_in_word.
  apply (for_each_accumulates
           (fun self => FeatureBinner.collected_values self name)).
  intros s3 kv s3'. apply collect_feature_values.
Qed.

Lemma fit_keeps (mapper fitted : FeatureMapper.t) :
  FeatureMapper.fit mapper = Ok fitted ->
  FeatureMapper.values fitted = FeatureMapper.values mapper /\
  FeatureMapper.feat_name fitted = FeatureMapper.feat_name mapper /\
  FeatureMapper._num_std fitted = FeatureMapper._num_std mapper /\
  FeatureMapper._size_std fitted = FeatureMapper._size_std mapper.
Proof.
  unfold FeatureMapper.fit.
  destruct (FeatureMapper.num_bin_of mapper) as [n|]; [|done].
  by intros [= <-].
Qed.

Lemma fit_each_keeps_keys (l : list (string * FeatureMapper.t))
    (acc self' : FeatureBinner.t) name :
  for_each (fun self kv =>
      mapper ← FeatureMapper.fit kv.2;
      Ok {| FeatureBinner.features :=
              <[kv.1 := mapper]> (FeatureBinner.features self) |})
    acc l = Ok self' ->
  is_Some (FeatureBinner.features acc !! name) ->
  is_Some (FeatureBinner.features self' !! name).
Proof.
  revert acc. induction l as [|[k m] l IH]; intros acc; cbn [for_each].
  - by intros [= <-].
  - destruct (FeatureMapper.fit _) as [m'|]; cbn [mbind result_bind]; [|done].
    intros Hrest Hacc. apply (IH _ Hrest). cbn [FeatureBinner.features fst].
    rewrite lookup_insert. by case_decide.
Qed.

Lemma fit_mappers_values (self self' : FeatureBinner.t) name :
  FeatureBinner.fit_mappers self = Ok self' ->
  FeatureBinner.collected_values self' name
    = FeatureBinner.collected_values self name.
Proof.
  intros Hfit. unfold FeatureBinner.collected_values.
  destruct (FeatureBinner.features self' !! name) as [m'|] eqn:Em'.
  - destruct (fit_mappers_lookup _ _ _ _ Hfit Em') as (m & -> & Hm).
    by destruct (fit_keeps _ _ Hm) as [-> _].
  - destruct (FeatureBinner.features self !! name) as [m|] eqn:Em; [|done].
    unfold FeatureBinner.fit_mappers in Hfit.
    destruct (fit_each_keeps_keys _ _ _ name Hfit) as [m' Hm'];
      [by rewrite Em|].
    by rewrite Em' in Hm'.
Qed.

Lemma fit_values (self fitted : FeatureBinner.t) (X : dataset) name :
  FeatureBinner.fit self X = Ok fitted ->
  FeatureBinner.collected_values fitted name
    = FeatureBinner.collected_values self name
      ++ FeatureBinner.coerced_in_dataset name X.
Proof.
  unfold FeatureBinner.fit.
  destruct (FeatureBinner.collect self X) as [collected|] eqn:Ec;
    cbn [mbind result_bind]; [|done].
  intros Hfit. by rewrite (fit_mappers_values _ _ _ Hfit), (collect_values _ _ _ _ Ec).
Qed.

Lemma fit_nonempty (self fitted : FeatureBinner.t) (X : dataset) :
  FeatureBinner.nonempty_mappers self ->
  FeatureBinner.fit self X = Ok fitted ->
  FeatureBinner.nonempty_mappers fitted.
Proof.
  intros Hinv. unfold FeatureBinner.fit.
  destruct (FeatureBinner.collect self X) as [collected|] eqn:Ec;
    cbn [mbind result_bind]; [|done].
  intros Hfit name m' Hm'.
  destruct (fit_mappers_lookup _ _ _ _ Hfit Hm') as (m & Hm & Hmfit).
  destruct (fit_keeps _ _ Hmfit) as [-> _].
  by apply (collect_nonempty _ _ _ Hinv Ec name).
Qed.

Lemma coerced_in_dataset_elem (X : dataset) (sent : sentence) (w : word)
    name value f :
  sent ∈ X -> w ∈ sent -> (name, value) ∈ w -> py_float value = Ok f ->
  f ∈ FeatureBinner.coerced_in_dataset name X.
Proof.
  intros Hsent Hw Hkv Hf.
  unfold FeatureBinner.coerced_in_dataset, FeatureBinner.coerced_in_word.
  apply list_elem_of_In, in_flat_map. exists sent.
  split; [by apply list_elem_of_In|].
  apply in_flat_map. exists w. split; [by apply list_elem_of_In|].
  apply in_flat_map. exists (name, value). split; [by apply list_elem_of_In|].
  cbn [fst snd]. rewrite String.eqb_refl, Hf. by left.
Qed.

(** X11: [fit] appends to the values a name already has, in the order of
    the visit, the floats that the values under that name coerce to, and
    nothing else: fitting a second time on the same data collects every
    value twice. *)
Theorem X11_fit_accumulates_values (self fitted : FeatureBinner.t)
    (X : dataset) (name : string) :
  FeatureBinner.fit self X = Ok fitted ->
  FeatureBinner.collected_values fitted name
    = FeatureBinner.collected_values self name
      ++ FeatureBinner.coerced_in_dataset name X.
Proof. apply fit_values. Qed.

(** X12: after [fit] on a new binner, a name has a mapper exactly when
    some value under that name coerces to a float. *)
Theorem X12_fit_creates_mappers_for_numeric_names (fitted : FeatureBinner.t)
    (X : dataset) (name : string) :
  FeatureBinner.fit FeatureBinner.init X = Ok fitted ->
  (is_Some (FeatureBinner.features fitted !! name) <->
   FeatureBinner.coerced_in_dataset name X <> []).
Proof.
  intros Hfit.
  pose proof (fit_values _ _ _ name Hfit) as Hvals.
  pose proof (fit_nonempty _ _ _ nonempty_mappers_init Hfit name) as Hne.
  unfold FeatureBinner.collected_values in Hvals.
  cbn [FeatureBinner.features FeatureBinner.init] in Hvals.
  rewrite lookup_empty in Hvals. cbn [app] in Hvals.
  destruct (FeatureBinner.features fitted !! name) as [m|] eqn:Em.
  - split; [|by eauto]. intros _. rewrite <- Hvals. by apply Hne.
  - split; [by intros [? ?]|]. intros Hc. by rewrite <- Hvals in Hc.
Qed.

Lemma collect_feature_named (self self' : FeatureBinner.t) name value :
  FeatureBinner.named_mappers self ->
  FeatureBinner._collect_feature self name value = Ok self' ->
  FeatureBinner.named_mappers self'.
Proof.
  intros Hinv. unfold FeatureBinner._collect_feature.
  destruct (py_float value) as [f|[]]; try done; intros [= <-]; [|done].
  intros k mapper. cbn [FeatureBinner.features]. rewrite lookup_insert.
  case_decide as Hk; [|apply Hinv]. intros [= <-]. by subst k.
Qed.

Lemma collect_feature_default (self self' : FeatureBinner.t) name value :
  FeatureBinner.default_mappers self ->
  FeatureBinner._collect_feature self name value = Ok self' ->
  FeatureBinner.default_mappers self'.
Proof.
  intros Hinv. unfold FeatureBinner._collect_feature.
  destruct (py_float value) as [f|[]]; try done; intros [= <-]; [|done].
  intros k mapper. cbn [FeatureBinner.features]. rewrite lookup_insert.
  case_decide as Hk; [|apply Hinv]. intros [= <-].
  cbn [FeatureMapper._num_std FeatureMapper._size_std FeatureMapper.add_value
       FeatureMapper.set_feat_name].
  destruct (FeatureBinner.features self !! name) as [m|] eqn:Em; [|done].
  by apply (Hinv name).
Qed.

Lemma collect_invariant (P : FeatureBinner.t -> Prop)
    (self self' : FeatureBinner.t) (X : dataset) :
  (forall s name value s',
     P s -> FeatureBinner._collect_feature s name value = Ok s' -> P s') ->
  P self -> FeatureBinner.collect self X = Ok self' -> P self'.
Proof.
  intros Hstep Hinv. unfold FeatureBinner.collect.
  apply for_each_invariant; [|done].
  intros s1 sent s1' Hs1. apply for_each_invariant; [|done].
  intros s2 w s2' Hs2. apply for_each_invariant; [|done].
  intros s3 kv s3' Hs3. by apply Hstep.
Qed.

(** X13: [fit] keeps every mapper labelled with the name it is stored
    under: a binner in which [feat_name] of each mapper is its key, the
    new binner among them, is such a binner again after [fit]. *)
Theorem X13_fit_keeps_mappers_named (self fitted : FeatureBinner.t)
    (X : dataset) :
  FeatureBinner.named_mappers self ->
  FeatureBinner.fit self X = Ok fitted ->
  FeatureBinner.named_mappers fitted.
Proof.
  intros Hinv. unfold FeatureBinner.fit.
  destruct (FeatureBinner.collect self X) as [collected|] eqn:Ec;
    cbn [mbind result_bind]; [|done].
  intros Hfit name m' Hm'.
  destruct (fit_mappers_lookup _ _ _ _ Hfit Hm') as (m & Hm & Hmfit).
  destruct (fit_keeps _ _ Hmfit) as (_ & -> & _).
  apply (collect_invariant FeatureBinner.named_mappers self collected X);
    [|done|done|done].
  intros s k v s'. apply collect_feature_named.
Qed.

(** X14: after [fit] on a dataset, [transform] of the same dataset
    replaces every value that coerces to a float by the integer bucket of
    the mapper of its name: [fit] has created that mapper. *)
Theorem X14_fit_then_transform_bins_every_numeric
    (self fitted : FeatureBinner.t) (X X' : dataset) (s i : nat)
    (sent : sentence) (w : word) (name : string) (value : pyval) (f : float) :
  FeatureBinner.fit self X = Ok fitted ->
  FeatureBinner.transform fitted X = Ok X' ->
  X !! s = Some sent -> sent !! i = Some w ->
  NoDup (dict_keys w) -> (name, value) ∈ w ->
  py_float value = Ok f ->
  exists mapper sent' w',
    FeatureBinner.features fitted !! name = Some mapper /\
    X' !! s = Some sent' /\ sent' !! i = Some w' /\
    dict_get w' name
      = Some (PyInt (Z.of_nat (FeatureMapper.map_bucket mapper f))).
Proof.
  intros Hfit HX Hs Hi Hnd Hin Hf.
  assert (f ∈ FeatureBinner.coerced_in_dataset name X) as Hmem.
  { apply (coerced_in_dataset_elem X sent w name value f); try done.
    - by eapply list_elem_of_lookup_2.
    - by eapply list_elem_of_lookup_2. }
  pose proof (fit_values _ _ _ name Hfit) as Hvals.
  unfold FeatureBinner.collected_values at 1 in Hvals.
  destruct (FeatureBinner.features fitted !! name) as [mapper|] eqn:Em.
  - destruct (transform_get fitted X X' s i sent w name value
                (PyInt (Z.of_nat (FeatureMapper.map_bucket mapper f))))
      as (sent' & w' & ? & ? & ?); auto.
    { by apply map_feature_mapped. }
    by exists mapper, sent', w'.
  - symmetry in Hvals. apply app_eq_nil in Hvals as [_ Hnil].
    rewrite Hnil in Hmem. by apply elem_of_nil in Hmem.
Qed.

Lemma fit_mappers_default_returns (self : FeatureBinner.t) :
  FeatureBinner.default_mappers self ->
  exists fitted, FeatureBinner.fit_mappers self = Ok fitted.
Proof.
  intros Hdef. unfold FeatureBinner.fit_mappers.
  match goal with
  | |- exists fitted, for_each ?body ?s ?l = Ok fitted =>
      destruct (for_each_ok (fun _ => True) body l s) as (fitted & Hf & _)
  end; [done| |by exists fitted].
  intros acc [k m] _ Hkm. apply elem_of_map_to_list in Hkm.
  destruct (Hdef k m Hkm) as [Hn Hs].
  destruct (fit_default_ok m Hn Hs) as (m' & Hm' & _).
  cbn [fst snd]. rewrite Hm'. cbn [mbind result_bind]. by eexists.
Qed.

(** X15: the mappers a binner creates have the default hyperparameters, so
    after [fit] each of them has nine boundaries, or one, and every bucket
    it gives lies between 0 and 9. *)
Theorem X15_fitted_default_mappers_give_buckets_up_to_nine
    (self fitted : FeatureBinner.t) (X : dataset) (name : string)
    (mapper : FeatureMapper.t) (value : float) :
  FeatureBinner.default_mappers self ->
  FeatureBinner.fit self X = Ok fitted ->
  FeatureBinner.features fitted !! name = Some mapper ->
  (length (FeatureMapper._std_bins mapper) = 9%nat \/
   length (FeatureMapper._std_bins mapper) = 1%nat) /\
  (FeatureMapper.map_bucket mapper value <= 9)%nat.
Proof.
  intros Hdef. unfold FeatureBinner.fit.
  destruct (FeatureBinner.collect self X) as [collected|] eqn:Ec;
    cbn [mbind result_bind]; [|done].
  intros Hfit Hm'.
  destruct (fit_mappers_lookup _ _ _ _ Hfit Hm') as (m & Hm & Hmfit).
  assert (FeatureBinner.default_mappers collected) as Hcdef.
  { apply (collect_invariant FeatureBinner.default_mappers self collected X);
      [|done|done].
    intros s k v s'. apply collect_feature_default. }
  destruct (Hcdef name m Hm) as [Hn Hs].
  destruct (fit_default_ok m Hn Hs) as (m2 & Hm2 & Hbins).
  rewrite Hmfit in Hm2. injection Hm2 as <-.
  assert (length (FeatureMapper._std_bins mapper) = 9%nat \/
          length (FeatureMapper._std_bins mapper) = 1%nat) as Hlen.
  { rewrite Hbins. cbn zeta. cbn [length]. rewrite fit_loop_length_cases.
    destruct (Float64.gtb _ ZERO); [by left|by right]. }
  split; [done|].
  pose proof (np_searchsorted_le_length (FeatureMapper._std_bins mapper) value).
  unfold FeatureMapper.map_bucket. lia.
Qed.

(** X16: on a binner whose mappers have the default hyperparameters, the
    new binner among them, [fit] never raises [ValueError]: an exception
    it raises is the exception, of another kind, that [float] raises on a
    value of the dataset. *)
Theorem X16_fit_raises_what_float_raises (self : FeatureBinner.t)
    (X : dataset) (e : exn) :
  FeatureBinner.default_mappers self ->
  FeatureBinner.fit self X = Raise e ->
  e <> ValueError /\
  exists (sent : sentence) (w : word) (kv : string * pyval),
    sent ∈ X /\ w ∈ sent /\ kv ∈ w /\ py_float kv.2 = Raise e.
Proof.
  intros Hdef. unfold FeatureBinner.fit.
  destruct (FeatureBinner.collect self X) as [collected|e'] eqn:Ec;
    cbn [mbind result_bind].
  - intros Hfit. exfalso.
    assert (FeatureBinner.default_mappers collected) as Hcdef.
    { apply (collect_invariant FeatureBinner.default_mappers self collected X);
        [|done|done].
      intros s k v s'. apply collect_feature_default. }
    destruct (fit_mappers_default_returns collected Hcdef) as [fitted Hok].
    by rewrite Hok in Hfit.
  - intros [= ->]. unfold FeatureBinner.collect in Ec.
    destruct (for_each_raise _ _ _ _ Ec) as (s1 & sent & Hsent & H1).
    destruct (for_each_raise _ _ _ _ H1) as (s2 & w & Hw & H2).
    destruct (for_each_raise _ _ _ _ H2) as (s3 & kv & Hkv & H3).
    unfold FeatureBinner._collect_feature in H3.
    destruct (py_float kv.2) as [f|e0] eqn:Hf; [done|].
    assert (e0 = e /\ e <> ValueError) as [-> Hne]
      by (destruct e0; try done; by injection H3 as <-).
    split; [done|]. by exists sent, w, kv.
Qed.

End FeatureBinnerFitMore.

Lemma X11_fit_accumulates_values_witness :
  @FeatureBinner.fit decimal_builtins numpy64 FeatureBinner.init sample_train
    = Ok sample_binner /\
  FeatureBinner.collected_values sample_binner "len"
    = FeatureBinner.collected_values FeatureBinner.init "len"
      ++ @FeatureBinner.coerced_in_dataset decimal_builtins "len" sample_train.
Proof.
  split; [vm_compute; reflexivity|].
  apply (@X11_fit_accumulates_values decimal_builtins numpy64).
  vm_compute. reflexivity.
Defined.

Lemma X12_fit_creates_mappers_for_numeric_names_witness :
  @FeatureBinner.fit decimal_builtins numpy64 FeatureBinner.init sample_train
    = Ok sample_binner /\
  (is_Some (FeatureBinner.features sample_binner !! "pos") <->
   @FeatureBinner.coerced_in_dataset decimal_builtins "pos" sample_train <> []).
Proof.
  split; [vm_compute; reflexivity|].
  apply (@X12_fit_creates_mappers_for_numeric_names decimal_builtins numpy64).
  vm_compute. reflexivity.
Defined.

Lemma X13_fit_keeps_mappers_named_witness :
  FeatureBinner.named_mappers FeatureBinner.init /\
  @FeatureBinner.fit decimal_builtins numpy64 FeatureBinner.init sample_train
    = Ok sample_binner /\
  FeatureBinner.named_mappers sample_binner.
Proof.
  assert (FeatureBinner.named_mappers FeatureBinner.init) as Hinit
    by (intros name mapper Hm; vm_compute in Hm; discriminate).
  split; [exact Hinit|]. split; [vm_compute; reflexivity|].
  apply (@X13_fit_keeps_mappers_named decimal_builtins numpy64
           FeatureBinner.init sample_binner sample_train Hinit).
  vm_compute. reflexivity.
Defined.

Lemma X14_fit_then_transform_bins_every_numeric_witness :
  @py_float decimal_builtins (PyInt 5) = Ok (Float64.of_Z 5) /\
  exists mapper sent' w',
    FeatureBinner.features sample_binner !! "len" = Some mapper /\
    sample_train_binned !! 1%nat = Some sent' /\ sent' !! 0%nat = Some w' /\
    dict_get w' "len"
      = Some (PyInt (Z.of_nat (FeatureMapper.map_bucket mapper (Float64.of_Z 5)))).
Proof.
  split; [vm_compute; reflexivity|].
  apply (@X14_fit_then_transform_bins_every_numeric decimal_builtins numpy64
           FeatureBinner.init sample_binner sample_train sample_train_binned
           1%nat 0%nat [ [("len", PyInt 5); ("pos", PyStr "NN")] ]
           [("len", PyInt 5); ("pos", PyStr "NN")] "len" (PyInt 5));
    [vm_compute; reflexivity | vm_compute; reflexivity | reflexivity
    | reflexivity | | | vm_compute; reflexivity].
  - apply NoDup_cons. split; [|apply NoDup_singleton].
    intros H. apply list_elem_of_singleton in H. discriminate.
  - apply list_elem_of_here.
Defined.

Lemma X15_fitted_default_mappers_give_buckets_up_to_nine_witness :
  FeatureBinner.default_mappers FeatureBinner.init /\
  FeatureBinner.features sample_binner !! "len" = Some len_fitted_named /\
  (FeatureMapper.map_bucket len_fitted_named (Float64.of_Z 1000) <= 9)%nat.
Proof.
  assert (FeatureBinner.default_mappers FeatureBinner.init) as Hinit
    by (intros name mapper Hm; vm_compute in Hm; discriminate).
  split; [exact Hinit|]. split; [vm_compute; reflexivity|].
  apply (@X15_fitted_default_mappers_give_buckets_up_to_nine decimal_builtins
           numpy64 FeatureBinner.init sample_binner sample_train "len"
           len_fitted_named (Float64.of_Z 1000) Hinit);
    vm_compute; reflexivity.
Defined.

Lemma X16_fit_raises_what_float_raises_witness :
  FeatureBinner.default_mappers FeatureBinner.init /\
  @FeatureBinner.fit decimal_builtins numpy64 FeatureBinner.init
    [[ [("f", PyNone)] ]] = Raise TypeError /\
  TypeError <> ValueError.
Proof.
  assert (FeatureBinner.default_mappers FeatureBinner.init) as Hinit
    by (intros name mapper Hm; vm_compute in Hm; discriminate).
  split; [exact Hinit|]. split; [reflexivity|].
  apply (@X16_fit_raises_what_float_raises decimal_builtins numpy64
           FeatureBinner.init [[ [("f", PyNone)] ]] TypeError Hinit).
  reflexivity.
Defined.

(** ** CRFTagger: feature extraction and label distributions *)

Lemma dict_lists_zip (d : gmap string float) :
  (list_to_map (zip (CRFTagger.dict_key_list d) (CRFTagger.dict_value_list d))
     : gmap string float) = d.
Proof.
  unfold CRFTagger.dict_key_list, CRFTagger.dict_value_list.
  rewrite zip_fst_snd. apply list_to_map_to_list.
Qed.

Lemma marginal_at_distribution marginals_dict q i tag p :
  CRFTagger.marginal_at marginals_dict q i tag = Ok p ->
  exists d, CRFTagger.distribution_at marginals_dict q i = Ok d /\
            d !! tag = Some p.
Proof.
  unfold CRFTagger.marginal_at, CRFTagger.distribution_at.
  destruct (marginals_dict !! q) as [qm|]; [|done].
  destruct (qm !! i) as [d|]; [|done].
  destruct (d !! tag) as [p'|] eqn:E; [|done].
  intros [= <-]. by exists d.
Qed.

Section Distributions.
Context `{!PyBuiltins, !Numpy, !CRFModel}.
Context {Example : Type} `{!SequenceFeatures Example}.

(** The inner loop appends one list of labels and one list of masses per
    token, read from the distribution of that token. *)
Lemma distribution_inner_sound md (q : nat) (l : list (nat * string)) tp tp' :
  for_each (fun (tp : list (list string) * list (list float))
                (it : nat * string) =>
      d ← CRFTagger.distribution_at md q it.1;
      Ok (tp.1 ++ [CRFTagger.dict_key_list d],
          tp.2 ++ [CRFTagger.dict_value_list d]))
    tp l = Ok tp' ->
  exists ds,
    Forall2 (fun (tok : nat * (nat * string)) d =>
               CRFTagger.distribution_at md tok.1 tok.2.1 = Ok d)
      ((fun it => (q, it)) <$> l) ds /\
    tp'.1 = tp.1 ++ (CRFTagger.dict_key_list <$> ds) /\
    tp'.2 = tp.2 ++ (CRFTagger.dict_value_list <$> ds).
Proof.
  revert tp. induction l as [|it l IH]; intros tp; cbn [for_each].
  - intros [= <-]. exists []. by rewrite !app_nil_r.
  - destruct (CRFTagger.distribution_at md q it.1) as [d|] eqn:Ed;
      cbn [mbind result_bind]; [|done].
    intros Hrest. destruct (IH _ Hrest) as (ds & Hds & Hka & Hva).
    exists (d :: ds). cbn [fst snd] in *. split; [by constructor|].
    rewrite Hka, Hva, !fmap_cons, <- !app_assoc. done.
Qed.

Lemma distribution_outer_sound md (L : list (nat * list string)) acc acc' :
  for_each (fun (acc : list (list string) * list (list float))
                (q : nat * list string) =>
      tp ← for_each (fun (tp : list (list string) * list (list float))
                         (it : nat * string) =>
              d ← CRFTagger.distribution_at md q.1 it.1;
              Ok (tp.1 ++ [CRFTagger.dict_key_list d],
                  tp.2 ++ [CRFTagger.dict_value_list d]))
            ([], []) (enumerate q.2);
      Ok (acc.1 ++ tp.1, acc.2 ++ tp.2))
    acc L = Ok acc' ->
  exists ds,
    Forall2 (fun (tok : nat * (nat * string)) d =>
               CRFTagger.distribution_at md tok.1 tok.2.1 = Ok d)
      (flat_map (fun q : nat * list string =>
                   (fun it : nat * string => (q.1, it)) <$> enumerate q.2) L)
      ds /\
    acc'.1 = acc.1 ++ (CRFTagger.dict_key_list <$> ds) /\
    acc'.2 = acc.2 ++ (CRFTagger.dict_value_list <$> ds).
Proof.
  revert acc. induction L as [|q L IH]; intros acc; cbn [for_each flat_map].
  - intros [= <-]. exists []. by rewrite !app_nil_r.
  - destruct (for_each _ ([], []) (enumerate q.2)) as [tp|] eqn:Einner;
      cbn [mbind result_bind]; [|done].
    destruct (distribution_inner_sound _ _ _ _ _ Einner) as (ds1 & Hds1 & Hka & Hva).
    intros Hrest. destruct (IH _ Hrest) as (ds2 & Hds2 & Hkb & Hvb).
    exists (ds1 ++ ds2). cbn [fst snd] in *.
    split; [by apply Forall2_app|].
    rewrite Hkb, Hvb, Hka, Hva, !fmap_app, <- !app_assoc. done.
Qed.

Lemma distribution_inner_returns md (q : nat) (l : list (nat * string)) tp :
  Forall (fun it : nat * string =>
            exists d, CRFTagger.distribution_at md q it.1 = Ok d) l ->
  exists tp',
    for_each (fun (tp : list (list string) * list (list float))
                  (it : nat * string) =>
        d ← CRFTagger.distribution_at md q it.1;
        Ok (tp.1 ++ [CRFTagger.dict_key_list d],
            tp.2 ++ [CRFTagger.dict_value_list d]))
      tp l = Ok tp'.
Proof.
  intros Hall. revert tp.
  induction Hall as [|it l [d Hd] _ IH]; intros tp; cbn [for_each];
    [by eexists|].
  rewrite Hd. cbn [mbind result_bind]. apply IH.
Qed.

Lemma distribution_outer_returns md (L : list (nat * list string)) acc :
  Forall (fun tok : nat * (nat * string) =>
            exists d, CRFTagger.distribution_at md tok.1 tok.2.1 = Ok d)
    (flat_map (fun q : nat * list string =>
                 (fun it : nat * string => (q.1, it)) <$> enumerate q.2) L) ->
  exists acc',
    for_each (fun (acc : list (list string) * list (list float))
                  (q : nat * list string) =>
        tp ← for_each (fun (tp : list (list string) * list (list float))
                           (it : nat * string) =>
                d ← CRFTagger.distribution_at md q.1 it.1;
                Ok (tp.1 ++ [CRFTagger.dict_key_list d],
                    tp.2 ++ [CRFTagger.dict_value_list d]))
              ([], []) (enumerate q.2);
        Ok (acc.1 ++ tp.1, acc.2 ++ tp.2))
      acc L = Ok acc'.
Proof.
  revert acc. induction L as [|q L IH]; intros acc Hall; cbn [for_each flat_map] in *;
    [by eexists|].
  apply Forall_app in Hall as [Hq Hrest].
  destruct (distribution_inner_returns md q.1 (enumerate q.2) ([], []))
    as [tp Htp].
  { rewrite Forall_fmap in Hq. exact Hq. }
  rewrite Htp. cbn [mbind result_bind]. by apply IH.
Qed.

(** X17: let [X] be the features of the examples.  Whenever
    [predict_proba_distribution] returns, it returns the one pair
    [tag_maps, predictions]: for the tokens of all queries in order, the
    labels and the masses of the marginal distribution of each token, so
    that zipping the two lists of a token gives its distribution back.
    It returns when the marginals have a distribution for every token
    that [predict] labels, and raises [IndexError] otherwise. *)
Theorem X17_predict_proba_distribution_lists (self self' : CRFTagger.t)
    (examples : list Example) (X : dataset) :
  CRFTagger.extract_features self examples false = Ok (self', X) ->
  (forall out,
     CRFTagger.predict_proba_distribution self examples = Ok out ->
     exists ds,
       Forall2 (fun (tok : nat * (nat * string)) d =>
                  CRFTagger.distribution_at (clf_predict_marginals X)
                    tok.1 tok.2.1 = Ok d)
         (visited_tokens (clf_predict X)) ds /\
       out = [(CRFTagger.dict_key_list <$> ds,
               CRFTagger.dict_value_list <$> ds)] /\
       Forall (fun d =>
                 (list_to_map (zip (CRFTagger.dict_key_list d)
                                   (CRFTagger.dict_value_list d))
                    : gmap string float) = d) ds) /\
  (Forall (fun tok : nat * (nat * string) =>
             exists d, CRFTagger.distribution_at (clf_predict_marginals X)
                         tok.1 tok.2.1 = Ok d)
     (visited_tokens (clf_predict X)) ->
   exists out, CRFTagger.predict_proba_distribution self examples = Ok out) /\
  (forall e,
     CRFTagger.predict_proba_distribution self examples = Raise e ->
     e = IndexError).
Proof.
  intros HX. unfold CRFTagger.predict_proba_distribution. rewrite HX.
  cbn [mbind result_bind snd]. unfold CRFTagger.distribution_lists.
  split; [|split].
  - intros out.
    destruct (for_each _ ([], []) (enumerate (clf_predict X))) as [tp|] eqn:E;
      cbn [mbind result_bind]; [|done].
    intros [= <-].
    destruct (distribution_outer_sound _ _ _ _ E) as (ds & Hds & Hka & Hva).
    exists ds. split; [exact Hds|]. cbn [fst snd app] in *.
    split; [destruct tp; cbn [fst snd] in *; by subst|].
    apply Forall_forall. intros d _. apply dict_lists_zip.
  - intros Hall.
    destruct (distribution_outer_returns (clf_predict_marginals X)
                (enumerate (clf_predict X)) ([], []) Hall) as [tp Htp].
    rewrite Htp. cbn [mbind result_bind]. by eexists.
  - intros e.
    destruct (for_each _ ([], []) (enumerate (clf_predict X))) as [tp|e'] eqn:E;
      cbn [mbind result_bind]; [done|].
    intros [= ->].
    destruct (for_each_raise _ _ _ _ E) as (acc & q & _ & Hq).
    destruct (for_each _ ([], []) (enumerate q.2)) as [tp|e'] eqn:Ei;
      cbn [mbind result_bind] in Hq; [done|].
    injection Hq as ->.
    destruct (for_each_raise _ _ _ _ Ei) as (tp & it & _ & Hit).
    unfold CRFTagger.distribution_at in Hit.
    destruct (_ !! q.1) as [qm|]; cbn [mbind result_bind] in Hit;
      [|by injection Hit].
    destruct (qm !! it.1); cbn [mbind result_bind] in Hit; [done|].
    by injection Hit.
Qed.

(** The rows of [predict_proba], put end to end, follow the visited
    tokens. *)
Lemma marginal_inner_tokens md (q : nat) (l : list (nat * string)) row :
  mapM (fun it : nat * string =>
          p ← CRFTagger.marginal_at md q it.1 it.2; Ok (it.2, p)) l = Ok row ->
  Forall2 (fun (tok : nat * (nat * string)) (tp : string * float) =>
             tp.1 = tok.2.2 /\
             exists d, CRFTagger.distribution_at md tok.1 tok.2.1 = Ok d /\
                       d !! tp.1 = Some tp.2)
    ((fun it => (q, it)) <$> l) row.
Proof.
  revert row. induction l as [|it l IH]; intros row; cbn [mapM].
  - intros [= <-]. constructor.
  - destruct (CRFTagger.marginal_at md q it.1 it.2) as [p|] eqn:Ep;
      cbn [mbind result_bind]; [|done].
    destruct (mapM _ l) as [k|] eqn:Ek; cbn [mbind result_bind]; [|done].
    intros [= <-]. rewrite fmap_cons. constructor; [|by apply IH].
    cbn [fst snd]. split; [done|]. by apply marginal_at_distribution.
Qed.

Lemma marginal_outer_tokens md (L : list (nat * list string)) rows :
  mapM (fun q : nat * list string =>
      mapM (fun it : nat * string =>
          p ← CRFTagger.marginal_at md q.1 it.1 it.2;
          Ok (it.2, p))
        (enumerate q.2))
    L = Ok rows ->
  Forall2 (fun (tok : nat * (nat * string)) (tp : string * float) =>
             tp.1 = tok.2.2 /\
             exists d, CRFTagger.distribution_at md tok.1 tok.2.1 = Ok d /\
                       d !! tp.1 = Some tp.2)
    (flat_map (fun q : nat * list string =>
                 (fun it : nat * string => (q.1, it)) <$> enumerate q.2) L)
    (concat rows).
Proof.
  revert rows. induction L as [|q L IH]; intros rows; cbn [mapM flat_map].
  - intros [= <-]. constructor.
  - destruct (mapM _ (enumerate q.2)) as [row|] eqn:Er;
      cbn [mbind result_bind]; [|done].
    destruct (mapM _ L) as [k|] eqn:Ek; cbn [mbind result_bind]; [|done].
    intros [= <-]. cbn [concat]. apply Forall2_app; [|by apply IH].
    by apply marginal_inner_tokens.
Qed.

(** X18: whenever [predict_proba] returns, [predict_proba_distribution]
    returns too, with one entry per pair of [predict_proba], the queries
    put end to end; and the pair (label, confidence) of a token is one of
    the (label, mass) pairs listed for the same position. *)
Theorem X18_predict_proba_agrees_with_distribution (self : CRFTagger.t)
    (examples : list Example) (probs : list (list (string * float))) :
  CRFTagger.predict_proba self examples = Ok probs ->
  exists tag_maps predictions,
    CRFTagger.predict_proba_distribution self examples
      = Ok [(tag_maps, predictions)] /\
    length tag_maps = length (concat probs) /\
    length predictions = length (concat probs) /\
    forall k tag p,
      concat probs !! k = Some (tag, p) ->
      exists tags masses,
        tag_maps !! k = Some tags /\ predictions !! k = Some masses /\
        (tag, p) ∈ zip tags masses.
Proof.
  unfold CRFTagger.predict_proba, CRFTagger.predict_proba_distribution.
  destruct (CRFTagger.extract_features self examples false) as [[self' X]|];
    cbn [mbind result_bind snd]; [|done].
  unfold CRFTagger.marginal_tuples, CRFTagger.distribution_lists.
  intros Hprobs.
  pose proof (marginal_outer_tokens _ _ _ Hprobs) as Htok.
  destruct (distribution_outer_returns (clf_predict_marginals X)
              (enumerate (clf_predict X)) ([], [])) as [tp Htp].
  { apply (Forall2_Forall_l _ _ _ _ Htok). apply Forall_forall.
    intros tp _ tok (_ & d & Hd & _). by exists d. }
  rewrite Htp.
  destruct (distribution_outer_sound _ _ _ _ Htp) as (ds & Hds & Hka & Hva).
  cbn [mbind result_bind fst snd app] in *.
  exists tp.1, tp.2. split; [by destruct tp|].
  pose proof (Forall2_length _ _ _ Htok) as Hlen1.
  pose proof (Forall2_length _ _ _ Hds) as Hlen2.
  rewrite Hka, Hva, !length_fmap.
  split; [lia|]. split; [lia|].
  intros k tag p Hk.
  destruct (Forall2_lookup_r _ _ _ _ _ Htok Hk) as (tok & Htokk & _ & d & Hd & Hmass).
  destruct (Forall2_lookup_l _ _ _ _ _ Hds Htokk) as (d' & Hd' & Hdd).
  rewrite Hd in Hdd. injection Hdd as <-.
  exists (CRFTagger.dict_key_list d), (CRFTagger.dict_value_list d).
  rewrite !list_lookup_fmap, Hd'. split; [done|]. split; [done|].
  unfold CRFTagger.dict_key_list, CRFTagger.dict_value_list.
  rewrite zip_fst_snd. by apply elem_of_map_to_list.
Qed.

(** X19: [extract_features] returns one feature sequence per example, each
    with as many tokens as the extractor gives for that example; at
    prediction time ([fit] false) the tagger is returned as it was, and at
    training time its binner is the old one after [FeatureBinner.fit] on
    the extracted features. *)
Theorem X19_extract_features_keeps_alignment (self self' : CRFTagger.t)
    (examples : list Example) (fit : bool) (X : dataset) :
  CRFTagger.extract_features self examples fit = Ok (self', X) ->
  length X = length examples /\
  (forall k example,
     examples !! k = Some example ->
     exists feat_seq,
       X !! k = Some feat_seq /\
       length feat_seq = length (extract_sequence_features example)) /\
  (if fit
   then FeatureBinner.fit (CRFTagger._feat_binner self)
          (extract_sequence_features <$> examples)
        = Ok (CRFTagger._feat_binner self')
   else self' = self).
Proof.
  unfold CRFTagger.extract_features, CRFTagger._preprocess_data,
    CRFTagger.extract_example_features.
  intros Hex.
  assert (FeatureBinner.transform (CRFTagger._feat_binner self')
            (extract_sequence_features <$> examples) = Ok X /\
          (if fit
           then FeatureBinner.fit (CRFTagger._feat_binner self)
                  (extract_sequence_features <$> examples)
                = Ok (CRFTagger._feat_binner self')
           else self' = self)) as [HX Hself].
  { destruct fit.
    - destruct (FeatureBinner.fit _ _) as [binner|];
        cbn [mbind result_bind] in Hex; [|done].
      destruct (FeatureBinner.transform _ _) as [new_X|] eqn:Et;
        cbn [mbind result_bind] in Hex; [|done].
      injection Hex as <- <-. done.
    - cbn [mbind result_bind] in Hex.
      destruct (FeatureBinner.transform _ _) as [new_X|] eqn:Et;
        cbn [mbind result_bind] in Hex; [|done].
      injection Hex as <- <-. done. }
  split; [|split; [|done]].
  - unfold FeatureBinner.transform in HX.
    by rewrite (mapM_result_length _ _ _ HX), length_fmap.
  - intros k example Hk. unfold FeatureBinner.transform in HX.
    destruct (mapM_result_lookup _ _ _ k (extract_sequence_features example) HX)
      as (feat_seq & Hf & Hm).
    { by rewrite list_lookup_fmap, Hk. }
    exists feat_seq. split; [done|]. by apply mapM_result_length in Hm.
Qed.

End Distributions.

Lemma X17_predict_proba_distribution_lists_witness :
  @CRFTagger.extract_features decimal_builtins numpy64 sentence
    identity_features sample_tagger sample_test false
    = Ok (sample_tagger, sample_test_binned) /\
  Forall (fun tok : nat * (nat * string) =>
            exists d,
              CRFTagger.distribution_at
                (@clf_predict_marginals toy_model sample_test_binned)
                tok.1 tok.2.1 = Ok d)
    (visited_tokens (@clf_predict toy_model sample_test_binned)) /\
  exists out,
    @CRFTagger.predict_proba_distribution decimal_builtins numpy64 toy_model
      sentence identity_features sample_tagger sample_test = Ok out.
Proof.
  assert (@CRFTagger.extract_features decimal_builtins numpy64 sentence
            identity_features sample_tagger sample_test false
          = Ok (sample_tagger, sample_test_binned)) as Hex
    by (vm_compute; reflexivity).
  assert (Forall (fun tok : nat * (nat * string) =>
            exists d,
              CRFTagger.distribution_at
                (@clf_predict_marginals toy_model sample_test_binned)
                tok.1 tok.2.1 = Ok d)
            (visited_tokens (@clf_predict toy_model sample_test_binned)))
    as Hall.
  { constructor; [|constructor]. exists toy_distribution. reflexivity. }
  split; [exact Hex|]. split; [exact Hall|].
  exact (proj1 (proj2 (@X17_predict_proba_distribution_lists decimal_builtins
           numpy64 toy_model sentence identity_features sample_tagger
           sample_tagger sample_test sample_test_binned Hex)) Hall).
Defined.

Lemma X18_predict_proba_agrees_with_distribution_witness :
  @CRFTagger.predict_proba decimal_builtins numpy64 toy_model sentence
    identity_features sample_tagger sample_test
    = Ok [[("O", Float64.div (Float64.of_Z 1) (Float64.of_Z 4))]] /\
  exists tag_maps predictions,
    @CRFTagger.predict_proba_distribution decimal_builtins numpy64 toy_model
      sentence identity_features sample_tagger sample_test
      = Ok [(tag_maps, predictions)] /\
    length tag_maps = 1%nat.
Proof.
  assert (@CRFTagger.predict_proba decimal_builtins numpy64 toy_model sentence
            identity_features sample_tagger sample_test
          = Ok [[("O", Float64.div (Float64.of_Z 1) (Float64.of_Z 4))]]) as Hp
    by (vm_compute; reflexivity).
  split; [exact Hp|].
  destruct (@X18_predict_proba_agrees_with_distribution decimal_builtins
              numpy64 toy_model sentence identity_features sample_tagger
              sample_test _ Hp) as (tag_maps & predictions & Hd & Hlen & _).
  exists tag_maps, predictions. split; [exact Hd | exact Hlen].
Defined.

Lemma X19_extract_features_keeps_alignment_witness :
  @CRFTagger.extract_features decimal_builtins numpy64 sentence
    identity_features sample_tagger sample_test false
    = Ok (sample_tagger, sample_test_binned) /\
  length sample_test_binned = length sample_test.
Proof.
  split; [vm_compute; reflexivity|].
  apply (@X19_extract_features_keeps_alignment decimal_builtins numpy64
           sentence identity_features sample_tagger sample_tagger sample_test
           false sample_test_binned).
  vm_compute. reflexivity.
Defined.

(** ** Classifier *)

Section ClassifierLoadMore.
Context {File Model : Type} `{!PyBuiltins, !Joblib File Model}.

(** X20: [load] never raises [FileNotFoundError]; when it raises, the
    classifier is as before; when it returns, the file exists, its
    unpickled content is the new [_model] and the class name is kept. *)
Theorem X20_load_changes_model_only_on_success (self : Classifier.t)
    (fs : gmap string File) (model_path : string) :
  let after := (Classifier.load self fs model_path).1 in
  let outcome := (Classifier.load self fs model_path).2 in
  outcome <> Raise FileNotFoundError /\
  (forall e, outcome = Raise e -> after = self) /\
  (outcome = Ok () ->
   exists file model,
     fs !! model_path = Some file /\ unpickle file = Ok model /\
     Classifier._model after = Some model /\
     Classifier.class_name after = Classifier.class_name self) /\
  (forall file model,
     fs !! model_path = Some file -> unpickle file = Ok model ->
     outcome = Ok ()).
Proof.
  unfold Classifier.load, joblib_load.
  destruct (fs !! model_path) as [file|] eqn:Efile.
  - destruct (unpickle file) as [model|e] eqn:Eun.
    + cbn [fst snd]. repeat split; try done.
      intros _. by exists file, model.
    + destruct e; cbn [fst snd]; repeat split; try done;
        by intros file' model' [= <-]; rewrite Eun.
  - cbn [fst snd]. repeat split; done.
Qed.

End ClassifierLoadMore.

Section GetModelConfig.
Context {MC : Type} `{!Classifier.ModelConfigClass MC}.

Lemma getitem_Some {V} (d : pydict V) key v :
  dict_get d key = Some v -> Classifier.getitem d key = Ok v.
Proof. intros Hk. unfold Classifier.getitem. by rewrite Hk. Qed.

Lemma getitem_None {V} (d : pydict V) key :
  dict_get d key = None -> Classifier.getitem d key = Raise (KeyError key).
Proof. intros Hk. unfold Classifier.getitem. by rewrite Hk. Qed.

Lemma or_setting_present (value : Classifier.cfgval)
    (model_config : pydict Classifier.cfgval) key v :
  dict_get model_config key = Some v ->
  Classifier.or_setting value model_config key
    = Ok (if Classifier.truthy value then value else v).
Proof.
  intros Hk. unfold Classifier.or_setting, Classifier.getitem.
  destruct (Classifier.truthy value); [done|]. by rewrite Hk.
Qed.

(** The name that [model_name or DEFAULT_CONFIG['default_model']] gives. *)
Lemma resolved_name (cfg : Classifier.config) (model_name : option string)
    (name : string) :
  name = match model_name with
         | Some n => if String.eqb n "" then Classifier.default_model cfg else n
         | None => Classifier.default_model cfg
         end ->
  match model_name with
  | Some n =>
      if negb (String.eqb n "") then Ok n
      else Ok (Classifier.default_model cfg)
  | None => Ok (Classifier.default_model cfg)
  end = Ok name.
Proof. intros ->. destruct model_name as [n|]; [|done]. by destruct (String.eqb n ""). Qed.

(** X21: with a configuration whose entry for the model has the four
    settings, [get_model_config] returns [ModelConfig] of, for each
    setting, the argument when it is true and the configured value
    otherwise (so [None], an empty string, 0, an empty list and an empty
    dict all give way to the configured value), with [None] second and
    [params_grid] before [features]; the model is the one named by
    [model_name], or the default model when that is [None] or empty. *)
Theorem X21_get_model_config_defaults (cfg : Classifier.config)
    (model_type features params_grid cv : Classifier.cfgval)
    (model_name : option string) (name : string)
    (entry : pydict Classifier.cfgval)
    (model_type0 features0 params_grid0 cv0 : Classifier.cfgval) :
  name = match model_name with
         | Some n => if String.eqb n "" then Classifier.default_model cfg else n
         | None => Classifier.default_model cfg
         end ->
  dict_get (Classifier.models cfg) name = Some entry ->
  dict_get entry "model_type" = Some model_type0 ->
  dict_get entry "features" = Some features0 ->
  dict_get entry "params_grid" = Some params_grid0 ->
  dict_get entry "cv" = Some cv0 ->
  let pick (value configured : Classifier.cfgval) :=
    if Classifier.truthy value then value else configured in
  Classifier.get_model_config (Some cfg) model_type features params_grid cv
    model_name
  = Ok (Classifier.ModelConfig (pick model_type model_type0) Classifier.CNone
          (pick params_grid params_grid0) (pick features features0)
          (pick cv cv0)).
Proof.
  intros Hname Hentry Hmt Hft Hpg Hcv pick.
  unfold Classifier.get_model_config.
  rewrite (resolved_name cfg model_name name Hname).
  cbn [mbind result_bind]. rewrite (getitem_Some _ _ _ Hentry).
  cbn [mbind result_bind].
  rewrite (or_setting_present _ _ _ _ Hmt). cbn [mbind result_bind].
  rewrite (or_setting_present _ _ _ _ Hft). cbn [mbind result_bind].
  rewrite (or_setting_present _ _ _ _ Hpg). cbn [mbind result_bind].
  rewrite (or_setting_present _ _ _ _ Hcv). cbn [mbind result_bind].
  done.
Qed.

(** X22: the failures of [get_model_config].  Without a configuration
    ([DEFAULT_CONFIG] is [None], as in the base class) it raises
    [TypeError] whatever is passed; with one, a model name that the
    configuration does not list raises [KeyError] of that name even when
    all four settings are passed; and a setting passed as a true value is
    never looked up, so with four true settings the entry of the model may
    lack every key. *)
Theorem X22_get_model_config_failures
    (model_type features params_grid cv : Classifier.cfgval)
    (model_name : option string) :
  Classifier.get_model_config (MC := MC) None model_type features params_grid
    cv model_name = Raise TypeError /\
  forall (cfg : Classifier.config) (name : string),
    name = match model_name with
           | Some n =>
               if String.eqb n "" then Classifier.default_model cfg else n
           | None => Classifier.default_model cfg
           end ->
    (dict_get (Classifier.models cfg) name = None ->
     Classifier.get_model_config (MC := MC) (Some cfg) model_type features
       params_grid cv model_name = Raise (KeyError name)) /\
    (forall entry,
       dict_get (Classifier.models cfg) name = Some entry ->
       Classifier.truthy model_type = true ->
       Classifier.truthy features = true ->
       Classifier.truthy params_grid = true ->
       Classifier.truthy cv = true ->
       Classifier.get_model_config (Some cfg) model_type features params_grid
         cv model_name
       = Ok (Classifier.ModelConfig model_type Classifier.CNone params_grid
               features cv)).
Proof.
  split.
  - unfold Classifier.get_model_config.
    destruct model_name as [n|]; [|done]. by destruct (String.eqb n "").
  - intros cfg name Hname. unfold Classifier.get_model_config.
    rewrite (resolved_name cfg model_name name Hname).
    cbn [mbind result_bind]. split.
    + intros Hnone. by rewrite (getitem_None _ _ Hnone).
    + intros entry Hentry Hmt Hft Hpg Hcv.
      rewrite (getitem_Some _ _ _ Hentry). cbn [mbind result_bind].
      unfold Classifier.or_setting. rewrite Hmt, Hft, Hpg, Hcv. done.
Qed.

End GetModelConfig.

Lemma X21_get_model_config_defaults_witness :
  dict_get (Classifier.models sample_config) "logreg" = Some sample_entry /\
  @Classifier.get_model_config _ config_tuple (Some sample_config)
    (Classifier.CStr "svm") (Classifier.CDict []) Classifier.CNone
    (Classifier.CInt 0) (Some "")
  = Ok (Classifier.CStr "svm", Classifier.CNone,
        Classifier.CDict
          [("C", Classifier.CList [Classifier.CInt 1; Classifier.CInt 10])],
        Classifier.CDict [("bag-of-words", Classifier.CDict [])],
        Classifier.CDict [("type", Classifier.CStr "k-fold")]).
Proof.
  split; [reflexivity|].
  apply (@X21_get_model_config_defaults _ config_tuple sample_config
           (Classifier.CStr "svm") (Classifier.CDict []) Classifier.CNone
           (Classifier.CInt 0) (Some "") "logreg" sample_entry
           (Classifier.CStr "text")
           (Classifier.CDict [("bag-of-words", Classifier.CDict [])])
           (Classifier.CDict
              [("C", Classifier.CList [Classifier.CInt 1; Classifier.CInt 10])])
           (Classifier.CDict [("type", Classifier.CStr "k-fold")]));
    reflexivity.
Defined.

Lemma X22_get_model_config_failures_witness :
  dict_get (Classifier.models sample_config) "svm" = None /\
  @Classifier.get_model_config _ config_tuple (Some sample_config)
    (Classifier.CStr "svm") (Classifier.CDict [("f", Classifier.CNone)])
    (Classifier.CDict [("C", Classifier.CNone)]) (Classifier.CInt 5)
    (Some "svm")
  = Raise (KeyError "svm").
Proof.
  split; [reflexivity|].
  apply (proj2 (@X22_get_model_config_failures _ config_tuple
                  (Classifier.CStr "svm")
                  (Classifier.CDict [("f", Classifier.CNone)])
                  (Classifier.CDict [("C", Classifier.CNone)])
                  (Classifier.CInt 5) (Some "svm")) sample_config "svm");
    reflexivity.
Defined.

Lemma X20_load_changes_model_only_on_success_witness :
  let self := {| Classifier.class_name := "DomainClassifier";
                 Classifier._model := (None : option unit) |} in
  let fs : gmap string unit := {[ "models/domain.pkl" := tt ]} in
  (@Classifier.load unit unit decimal_builtins plain_joblib self fs
     "models/domain.pkl").2 = Ok () /\
  (@Classifier.load unit unit decimal_builtins plain_joblib self fs
     "models/domain.pkl").2 <> Raise FileNotFoundError.
Proof.
  intros self fs. split; [vm_compute; reflexivity|].
  exact (proj1 (@X20_load_changes_model_only_on_success unit unit
                  decimal_builtins plain_joblib self fs "models/domain.pkl")).
Defined.
